(** * Cascading filters and chart builders of the ERCOT bid dashboard

    A shallow embedding of [visualization_app.py]: the three dropdown
    callbacks of the filter cascade, the two chart builders and the render
    dispatcher, over a model of the few pandas and plotly operations they
    call.

    Conventions of the embedding.
    - The module-level [df] and [dash.callback_context] are ambient state:
      every Python function is a state-passing function on a [World].
    - A Python exception is the [Raise] case of [Result].
    - A [DataFrame] is the list of its rows, in file order.  A boolean mask
      is a predicate on rows, [df[mask]] is [filter].
    - Text columns hold strings, and the two bid columns hold numbers of a
      type [num] that the program only carries around (float64 in pandas):
      the development is parametric in it.
    - ['Hour Ending'] holds integers.  The panel arithmetic is written on
      [Z] as the source writes it; [panel_int64_agrees] relates it to its
      evaluation on the int64 values pandas holds. *)

From Stdlib Require Import ZArith List String Ascii Bool Lia Permutation.
From Stdlib Require Import Sorted QArith DecimalString DecimalZ.
Import ListNotations.
Local Open Scope Z_scope.

Notation "a +++ b" := (String.append a b)
  (at level 60, right associativity).

(** ** Python values *)

Definition is_None {A : Type} (v : option A) : bool :=
  match v with
  | None => true
  | Some _ => false
  end.

(** [str(n)] for an integer: its decimal digits, with a leading minus sign
    for a negative one. *)
Definition str_int (n : Z) : string :=
  NilEmpty.string_of_int (Z.to_int n).

(** [str(v)] for an optional string, as an f-string renders it. *)
Definition str_opt (v : option string) : string :=
  match v with
  | None => "None"%string
  | Some s => s
  end.

(** [range(n)] *)
Definition range (n : nat) : list Z := map Z.of_nat (seq 0 n).

(** [s.split('.')[0]]: the characters before the first dot, the whole
    string when it has none. *)
Fixpoint split_dot_head (s : string) : string :=
  match s with
  | EmptyString => EmptyString
  | String c rest =>
      if Ascii.eqb c "."%char then EmptyString
      else String c (split_dot_head rest)
  end.

(** Exceptions the modelled library calls can raise. *)
Inductive Exception : Type :=
| NoSubplotGrid       (* add_trace(row=, col=) on a figure without a grid *)
| RowOutOfRange       (* "Row value is out of range" *)
| ColOutOfRange       (* "Col value is out of range" *)
| PairOutOfRange.     (* "The (row, col) pair sent is out of range" *)

Inductive Result (A : Type) : Type :=
| Ok (a : A)
| Raise (e : Exception).
Arguments Ok {A} a.
Arguments Raise {A} e.

(** A [for] loop whose body may raise: the first exception ends the loop. *)
Fixpoint for_each {A S : Type} (body : S -> A -> Result S)
    (l : list A) (s : S) : Result S :=
  match l with
  | [] => Ok s
  | a :: l' =>
      match body s a with
      | Ok s' => for_each body l' s'
      | Raise e => Raise e
      end
  end.

(** ** pandas *)

(** [Series.unique()]: the distinct values in order of first appearance.
    [seen] is the table of values met so far. *)
Fixpoint unique_from {A : Type} (eqb : A -> A -> bool)
    (seen l : list A) : list A :=
  match l with
  | [] => []
  | a :: l' =>
      if existsb (eqb a) seen then unique_from eqb seen l'
      else a :: unique_from eqb (a :: seen) l'
  end.

Definition unique {A : Type} (eqb : A -> A -> bool) (l : list A) : list A :=
  unique_from eqb [] l.

(** The keys of a [groupby], kept sorted and without repetition. *)
Fixpoint insert_key (k : Z) (ks : list Z) : list Z :=
  match ks with
  | [] => [k]
  | k' :: ks' =>
      if k <? k' then k :: ks
      else if k =? k' then ks
      else k' :: insert_key k ks'
  end.

Definition sorted_keys (l : list Z) : list Z :=
  fold_right insert_key [] l.

(** ** 64-bit reading of the panel arithmetic

    pandas holds ['Hour Ending'] as int64, so [hour - 1], [// 6], [% 6] and
    [+ 1] are 64-bit operations that wrap around. *)
Definition wrap64 (z : Z) : Z := (z + 2 ^ 63) mod 2 ^ 64 - 2 ^ 63.

Definition int64 (z : Z) : Prop := - 2 ^ 63 <= z < 2 ^ 63.

Section Dashboard.

(** The type of the bid values. *)
Context {num : Type}.

(** ** Data model *)

(** One row of [melted_non_renewable.csv]. *)
Record BidRecord : Type := {
  delivery_date : string;      (* 'Delivery Date' *)
  resource_name : string;      (* 'Resource Name' *)
  resource_type : string;      (* 'Resource Type' *)
  qse : string;                (* 'QSE' *)
  hour_ending : Z;             (* 'Hour Ending' *)
  supply_bid_value : num;      (* 'Supply Bid Value' *)
  price_bid_value : num        (* 'Price Bid Value' *)
}.

Definition DataFrame : Type := list BidRecord.

(** The mask [df[col] == v] at one row.  pandas compares elementwise, and
    the comparison with [None] is [False] at every row. *)
Definition series_eq (col : BidRecord -> string) (v : option string)
    (r : BidRecord) : bool :=
  match v with
  | None => false
  | Some s => String.eqb (col r) s
  end.

(** The mask [df['Hour Ending'] == hour] at one row. *)
Definition hour_eq (hour : Z) (r : BidRecord) : bool :=
  hour_ending r =? hour.

(** [df.groupby('Hour Ending')]: one [(key, sub-frame)] pair per distinct
    key, keys ascending, rows of a group in their original order. *)
Definition groupby_hour (d : DataFrame) : list (Z * DataFrame) :=
  map (fun hour => (hour, filter (hour_eq hour) d))
      (sorted_keys (map hour_ending d)).

(** ** plotly *)

(** [go.Scatter(x=, y=, mode=, marker=dict(size=), name=)] *)
Record Scatter : Type := {
  x : list num;
  y : list num;
  mode : string;
  marker_size : option Z;
  name : string
}.

(** The grid of [make_subplots]; titles are in row-major order. *)
Record Subplots : Type := {
  rows : Z;
  cols : Z;
  subplot_titles : list string;
  horizontal_spacing : Q;
  vertical_spacing : Q
}.

Record Layout : Type := {
  height : option Z;
  width : option Z;
  showlegend : option bool;
  title_text : option string;
  xaxis_title : option string;
  yaxis_title : option string;
  (* axis titles set on one cell of the grid: (row, col, text) *)
  subplot_xaxis_titles : list (Z * Z * string);
  subplot_yaxis_titles : list (Z * Z * string)
}.

(** A figure: its grid if it was made by [make_subplots], its traces in the
    order they were added, each with the grid cell it was put in if any. *)
Record Figure : Type := {
  grid : option Subplots;
  data : list (Scatter * option (Z * Z));
  layout : Layout
}.

Definition empty_layout : Layout :=
  {| height := None; width := None; showlegend := None;
     title_text := None; xaxis_title := None; yaxis_title := None;
     subplot_xaxis_titles := []; subplot_yaxis_titles := [] |}.

(** [go.Figure()]: the empty chart. *)
Definition go_Figure : Figure :=
  {| grid := None; data := []; layout := empty_layout |}.

(** [make_subplots(rows=, cols=, subplot_titles=, horizontal_spacing=,
    vertical_spacing=)] *)
Definition make_subplots (nrows ncols : Z) (titles : list string)
    (hs vs : Q) : Figure :=
  {| grid := Some {| rows := nrows; cols := ncols; subplot_titles := titles;
                     horizontal_spacing := hs; vertical_spacing := vs |};
     data := [];
     layout := empty_layout |}.

(** [fig.add_trace(trace)] *)
Definition add_trace (fig : Figure) (trace : Scatter) : Figure :=
  {| grid := grid fig;
     data := data fig ++ [(trace, None)];
     layout := layout fig |}.

(** Is [(row, col)] a cell of the grid? *)
Definition in_grid (g : Subplots) (row col : Z) : bool :=
  (1 <=? row) && (row <=? rows g) && (1 <=? col) && (col <=? cols g).

(** [fig.add_trace(trace, row=, col=)]: raises when the figure has no grid
    or the cell is outside it. *)
Definition add_trace_at (fig : Figure) (trace : Scatter) (row col : Z)
    : Result Figure :=
  match grid fig with
  | None => Raise NoSubplotGrid
  | Some g =>
      if row <=? 0 then Raise RowOutOfRange
      else if col <=? 0 then Raise ColOutOfRange
      else if (rows g <? row) || (cols g <? col) then Raise PairOutOfRange
      else Ok {| grid := grid fig;
                 data := data fig ++ [(trace, Some (row, col))];
                 layout := layout fig |}
  end.

(** The title plotly shows over the cell [(row, col)]. *)
Definition panel_title (g : Subplots) (row col : Z) : option string :=
  nth_error (subplot_titles g) (Z.to_nat ((row - 1) * cols g + (col - 1))).

(** [fig.update_xaxes(title_text=, row=, col=)] and its y twin. *)
Definition update_xaxes (fig : Figure) (text : string) (row col : Z)
    : Figure :=
  let l := layout fig in
  {| grid := grid fig;
     data := data fig;
     layout :=
       {| height := height l; width := width l; showlegend := showlegend l;
          title_text := title_text l;
          xaxis_title := xaxis_title l; yaxis_title := yaxis_title l;
          subplot_xaxis_titles :=
            subplot_xaxis_titles l ++ [(row, col, text)];
          subplot_yaxis_titles := subplot_yaxis_titles l |} |}.

Definition update_yaxes (fig : Figure) (text : string) (row col : Z)
    : Figure :=
  let l := layout fig in
  {| grid := grid fig;
     data := data fig;
     layout :=
       {| height := height l; width := width l; showlegend := showlegend l;
          title_text := title_text l;
          xaxis_title := xaxis_title l; yaxis_title := yaxis_title l;
          subplot_xaxis_titles := subplot_xaxis_titles l;
          subplot_yaxis_titles :=
            subplot_yaxis_titles l ++ [(row, col, text)] |} |}.

(** ** The application *)

(** The ambient state of a callback: the table loaded at start-up and the
    ['prop_id'] of each entry of [dash.callback_context.triggered] (the only
    field the program reads; the list is empty when nothing was triggered). *)
Record World : Type := {
  df : DataFrame;
  triggered : list string
}.

(** A dropdown option [{'label': v, 'value': v}]. *)
Record DropdownOption : Type := {
  label : string;
  value : string
}.

Definition option_of (v : string) : DropdownOption :=
  {| label := v; value := v |}.

(** [row] and [col] of the panel of an hour, as the loop of [create_graph1]
    computes them ([//] and [%] round towards minus infinity, as [Z.div] and
    [Z.modulo] do). *)
Definition panel_row (hour : Z) : Z := (hour - 1) / 6 + 1.
Definition panel_col (hour : Z) : Z := (hour - 1) mod 6 + 1.

(** The same two computations on int64. *)
Definition panel_row64 (hour : Z) : Z :=
  wrap64 (wrap64 (wrap64 (hour - 1) / 6) + 1).
Definition panel_col64 (hour : Z) : Z :=
  wrap64 (wrap64 (wrap64 (hour - 1) mod 6) + 1).

(** The mask shared by the two chart builders. *)
Definition selection_mask
    (selected_date selected_unit selected_generator
     selected_resource_type : option string) (r : BidRecord) : bool :=
  series_eq delivery_date selected_date r
  && series_eq resource_name selected_unit r
  && series_eq qse selected_generator r
  && series_eq resource_type selected_resource_type r.

(** The trace [create_graph1] draws for one group. *)
Definition hour_markers (hour : Z) (hour_df : DataFrame) : Scatter :=
  {| x := map supply_bid_value hour_df;
     y := map price_bid_value hour_df;
     mode := "markers";
     marker_size := Some 8;
     name := "Hour " +++ str_int hour |}.

(** The trace [create_graph2] draws for one hour. *)
Definition hour_curve (hour : Z) (hour_df : DataFrame) : Scatter :=
  {| x := map supply_bid_value hour_df;
     y := map price_bid_value hour_df;
     mode := "markers+lines";
     marker_size := None;
     name := "Hour " +++ str_int hour |}.

(** The body of the loop of [create_graph1], for one group. *)
Definition plot_hour (fig : Figure) (group : Z * DataFrame)
    : Result Figure :=
  let '(hour, hour_df) := group in
  let row := panel_row hour in
  let col := panel_col hour in
  add_trace_at fig (hour_markers hour hour_df) row col.

(** The body of the loop of [create_graph2], for one hour. *)
Definition draw_hour (filtered_df : DataFrame) (fig : Figure) (hour : Z)
    : Figure :=
  let hour_df := filter (hour_eq hour) filtered_df in
  add_trace fig (hour_curve hour hour_df).

(** [create_graph1]: one scatter panel per hour on a 4 x 6 grid. *)
Definition create_graph1
    (selected_date selected_unit selected_generator
     selected_resource_type : option string) (w : World)
    : Result Figure * World :=
  if is_None selected_date || is_None selected_unit
     || is_None selected_generator || is_None selected_resource_type
  then (Ok go_Figure, w)
  else
    let filtered_df :=
      filter (selection_mask selected_date selected_unit
                selected_generator selected_resource_type) (df w) in
    let fig :=
      make_subplots 4 6
        (map (fun i => "Hour " +++ str_int (i + 1)) (range 24))
        (5 # 100) (1 # 10) in
    let plotted :=
      for_each plot_hour (groupby_hour filtered_df) fig in
    match plotted with
    | Raise e => (Raise e, w)
    | Ok fig =>
        let fig := update_xaxes fig "Supply Bid Value" 4 1 in
        let fig := update_yaxes fig "Price Bid Value" 1 1 in
        let l := layout fig in
        (Ok {| grid := grid fig;
               data := data fig;
               layout :=
                 {| height := Some 800; width := Some 1200;
                    showlegend := Some false;
                    title_text :=
                      Some ("Supply vs Price for "
                            +++ str_opt selected_date +++ ", "
                            +++ str_opt selected_unit +++ ", "
                            +++ str_opt selected_generator +++ ", "
                            +++ str_opt selected_resource_type);
                    xaxis_title := xaxis_title l;
                    yaxis_title := yaxis_title l;
                    subplot_xaxis_titles := subplot_xaxis_titles l;
                    subplot_yaxis_titles := subplot_yaxis_titles l |} |},
         w)
    end.

(** [create_graph2]: every hour's curve on one chart. *)
Definition create_graph2
    (selected_date selected_unit selected_generator
     selected_resource_type : option string) (w : World)
    : Result Figure * World :=
  if is_None selected_date || is_None selected_unit
     || is_None selected_generator || is_None selected_resource_type
  then (Ok go_Figure, w)
  else
    let filtered_df :=
      filter (selection_mask selected_date selected_unit
                selected_generator selected_resource_type) (df w) in
    let fig := go_Figure in
    let fig :=
      fold_left (draw_hour filtered_df)
        (unique Z.eqb (map hour_ending filtered_df)) fig in
    let l := layout fig in
    (Ok {| grid := grid fig;
           data := data fig;
           layout :=
             {| height := height l; width := width l;
                showlegend := Some true;
                title_text :=
                  Some ("Supply and Price Bids for "
                        +++ str_opt selected_resource_type +++ ", "
                        +++ str_opt selected_generator +++ ", "
                        +++ str_opt selected_unit +++ ", "
                        +++ str_opt selected_date);
                xaxis_title := Some "Supply Bid"%string;
                yaxis_title := Some "Price Bid"%string;
                subplot_xaxis_titles := subplot_xaxis_titles l;
                subplot_yaxis_titles := subplot_yaxis_titles l |} |},
     w).

(** [update_generator_dropdown] *)
Definition update_generator_dropdown
    (selected_resource_type : option string) (w : World)
    : Result (list DropdownOption) * World :=
  if is_None selected_resource_type then (Ok [], w)
  else
    let filtered_df :=
      filter (series_eq resource_type selected_resource_type) (df w) in
    let generators := unique String.eqb (map qse filtered_df) in
    (Ok (map option_of generators), w).

(** [update_unit_dropdown] *)
Definition update_unit_dropdown
    (selected_generator selected_resource_type : option string) (w : World)
    : Result (list DropdownOption) * World :=
  if is_None selected_generator then (Ok [], w)
  else
    let filtered_df :=
      filter (fun r => series_eq qse selected_generator r
                       && series_eq resource_type selected_resource_type r)
             (df w) in
    let units := unique String.eqb (map resource_name filtered_df) in
    (Ok (map option_of units), w).

(** [update_date_dropdown] *)
Definition update_date_dropdown
    (selected_unit selected_generator
     selected_resource_type : option string) (w : World)
    : Result (list DropdownOption) * World :=
  if is_None selected_unit then (Ok [], w)
  else
    let filtered_df :=
      filter (fun r => series_eq resource_name selected_unit r
                       && series_eq qse selected_generator r
                       && series_eq resource_type selected_resource_type r)
             (df w) in
    let dates := unique String.eqb (map delivery_date filtered_df) in
    (Ok (map option_of dates), w).

(** [display_graph]: the chart to show after a button or a dropdown
    changed. *)
Definition display_graph (btn1 btn2 : Z)
    (selected_date selected_unit selected_generator
     selected_resource_type : option string) (w : World)
    : Result Figure * World :=
  match triggered w with
  | [] => (Ok go_Figure, w)
  | prop_id :: _ =>
      let button_id := split_dot_head prop_id in
      if String.eqb button_id "btn-graph1" && (0 <? btn1) then
        create_graph1 selected_date selected_unit selected_generator
          selected_resource_type w
      else if String.eqb button_id "btn-graph2" && (0 <? btn2) then
        create_graph2 selected_date selected_unit selected_generator
          selected_resource_type w
      else (Ok go_Figure, w)
  end.

(** The options the layout gives the resource type dropdown, the head of
    the cascade: [{'label': rt, 'value': rt} for rt in
    df['Resource Type'].unique()]. *)
Definition resource_type_options (w : World) : list DropdownOption :=
  map option_of (unique String.eqb (map resource_type (df w))).

End Dashboard.

(** ** Vocabulary of the properties *)

(** Position of the first element of [l] that satisfies [f] (the length of
    [l] when there is none). *)
Fixpoint first_row {A : Type} (f : A -> bool) (l : list A) : nat :=
  match l with
  | [] => 0%nat
  | b :: l' => if f b then 0%nat else S (first_row f l')
  end.

(** Position of the first occurrence of [a] in [l]. *)
Definition first_pos {A : Type} (eqb : A -> A -> bool) (a : A) (l : list A)
    : nat :=
  first_row (eqb a) l.

(** [a] is met in [l] before [b] is. *)
Definition appears_before {A : Type} (eqb : A -> A -> bool) (l : list A)
    (a b : A) : Prop :=
  (first_pos eqb a l < first_pos eqb b l)%nat.

(** The name both builders give to the series of an hour. *)
Definition hour_label (hour : Z) : string := "Hour " +++ str_int hour.

(** The 24 cells of the 4 x 6 grid, row by row. *)
Definition grid_cells : list (Z * Z) :=
  list_prod [1; 2; 3; 4] [1; 2; 3; 4; 5; 6].

Definition cell_eq_dec (p q : Z * Z) : {p = q} + {p <> q}.
Proof. decide equality; apply Z.eq_dec. Defined.

(** [s] holds no dot. *)
Fixpoint has_no_dot (s : string) : bool :=
  match s with
  | EmptyString => true
  | String c rest => negb (Ascii.eqb c ".") && has_no_dot rest
  end.

Section Vocabulary.

Context {num : Type}.

(** The point a record contributes to a chart. *)
Definition record_point (r : @BidRecord num) : num * num :=
  (supply_bid_value r, price_bid_value r).

(** The points of a series, and of a whole figure. *)
Definition points (t : @Scatter num) : list (num * num) :=
  combine (x t) (y t).

Definition plotted_points (fig : @Figure num) : list (num * num) :=
  flat_map (fun tp => points (fst tp)) (data fig).

Definition series_names (fig : @Figure num) : list string :=
  map (fun tp => name (fst tp)) (data fig).

(** What a series shows: its name and its two columns of values. *)
Definition series_content (tp : @Scatter num * option (Z * Z))
    : string * list num * list num :=
  (name (fst tp), x (fst tp), y (fst tp)).

(** A series holds as many x as y values, and at least one. *)
Definition well_formed_series (tp : @Scatter num * option (Z * Z)) : Prop :=
  List.length (x (fst tp)) = List.length (y (fst tp))
  /\ (0 < List.length (x (fst tp)))%nat.

(** A record matches the four selections. *)
Definition matches (d u g t : string) (r : @BidRecord num) : Prop :=
  delivery_date r = d /\ resource_name r = u
  /\ qse r = g /\ resource_type r = t.

(** The records that match the four selections, in file order. *)
Definition selected_rows (w : @World num) (d u g t : string)
    : @DataFrame num :=
  filter (selection_mask (Some d) (Some u) (Some g) (Some t)) (df w).

(** The grid cells that hold at least one trace. *)
Definition populated_panels (fig : @Figure num) : list (Z * Z) :=
  nodup cell_eq_dec
    (flat_map (fun tp => match snd tp with
                         | Some cell => [cell]
                         | None => []
                         end) (data fig)).

(** [opts] lists, for the column [col], the values of the rows of [d]
    that satisfy [upstream]: every such value once, as label and as value,
    ordered by the table position of the first such row that holds it. *)
Definition first_appearance_options (col : @BidRecord num -> string)
    (upstream : @BidRecord num -> bool) (d : @DataFrame num)
    (opts : list DropdownOption) : Prop :=
  Forall (fun o => label o = value o) opts
  /\ NoDup (map value opts)
  /\ (forall v, In v (map value opts)
                <-> exists r, In r d /\ upstream r = true /\ col r = v)
  /\ StronglySorted
       (fun a b =>
          (first_row (fun r => upstream r && String.eqb (value a) (col r)) d
           < first_row (fun r => upstream r && String.eqb (value b) (col r))
               d)%nat)
       opts.

(** [t] is the series of hour [h] over the rows [d], drawn with [m]. *)
Definition series_of_hour (m : string) (d : @DataFrame num) (h : Z)
    (t : @Scatter num) : Prop :=
  name t = hour_label h
  /\ mode t = m
  /\ x t = map supply_bid_value (filter (hour_eq h) d)
  /\ y t = map price_bid_value (filter (hour_eq h) d).

(** Claim C8 as the specification words it: the series of the overlay are
    those of a strictly ascending list of hours. *)
Definition overlay_series_ascending (w : @World num) (d u g t : string)
    : Prop :=
  exists fig hs,
    fst (create_graph2 (Some d) (Some u) (Some g) (Some t) w) = Ok fig
    /\ series_names fig = map hour_label hs
    /\ StronglySorted Z.lt hs.

(** Claim C9 as the specification words it, for the dispatcher: its chart
    is a function of its arguments and the table. *)
Definition dispatcher_output_fixed_by_arguments : Prop :=
  forall (btn1 btn2 : Z) (sd su sg st : option string) (w1 w2 : @World num),
    df w1 = df w2 ->
    fst (display_graph btn1 btn2 sd su sg st w1)
    = fst (display_graph btn1 btn2 sd su sg st w2).

End Vocabulary.

(** ** Sample data *)

Definition sample_bid (date : string) (hour supply price : Z)
    : @BidRecord Z :=
  {| delivery_date := date; resource_name := "UNIT1";
     resource_type := "CCGT90"; qse := "QSE1";
     hour_ending := hour;
     supply_bid_value := supply; price_bid_value := price |}.

Definition other_bid : @BidRecord Z :=
  {| delivery_date := "01/02/2023"; resource_name := "UNIT2";
     resource_type := "SCGT90"; qse := "QSE2";
     hour_ending := 3;
     supply_bid_value := 5; price_bid_value := 50 |}.

(** A table whose rows are not in hour order. *)
Definition sample_df : @DataFrame Z :=
  [ sample_bid "01/01/2023" 7 10 20;
    sample_bid "01/01/2023" 1 11 21;
    other_bid;
    sample_bid "01/01/2023" 7 12 22;
    sample_bid "01/02/2023" 2 13 23 ].

(** The same table with one bid at an hour outside 1..24. *)
Definition late_df : @DataFrame Z :=
  sample_bid "01/01/2023" 25 14 24 :: sample_df.

Definition after_button1 : @World Z :=
  {| df := sample_df; triggered := ["btn-graph1.n_clicks"%string] |}.

Definition after_button2 : @World Z :=
  {| df := sample_df; triggered := ["btn-graph2.n_clicks"%string] |}.

Definition after_date_change : @World Z :=
  {| df := sample_df; triggered := ["date_dropdown.value"%string] |}.

Definition at_page_load : @World Z :=
  {| df := sample_df; triggered := [] |}.

Definition late_world : @World Z :=
  {| df := late_df; triggered := ["btn-graph1.n_clicks"%string] |}.

(** The sample table with one bid at hour 0 and one at hour 25. *)
Definition early_world : @World Z :=
  {| df := sample_bid "01/01/2023" 0 15 25 :: late_df;
     triggered := ["btn-graph1.n_clicks"%string] |}.

(** A table stored in hour order. *)
Definition sorted_world : @World Z :=
  {| df := [ sample_bid "01/03/2023" 1 10 20;
             sample_bid "01/03/2023" 1 11 21;
             sample_bid "01/03/2023" 2 12 22;
             sample_bid "01/03/2023" 7 13 23 ];
     triggered := ["btn-graph2.n_clicks"%string] |}.

(** * Properties *)

(** ** Lists *)

Lemma StronglySorted_In_impl {A : Type} (R R' : A -> A -> Prop) (l : list A) :
  (forall a b, In a l -> In b l -> R a b -> R' a b) ->
  StronglySorted R l -> StronglySorted R' l.
Proof.
  intros Himp Hs. induction Hs as [| a l Hs IH Hall]; constructor.
  - apply IH. intros b c Hb Hc. apply Himp; now right.
  - rewrite Forall_forall in *. intros b Hb.
    apply Himp; [now left | now right | now apply Hall].
Qed.

Lemma StronglySorted_lt_NoDup (l : list Z) :
  StronglySorted Z.lt l -> NoDup l.
Proof.
  induction 1 as [| a l Hs IH Hall]; constructor; auto.
  intros Hin. rewrite Forall_forall in Hall.
  specialize (Hall a Hin). lia.
Qed.

Lemma filter_nothing {A : Type} (f : A -> bool) (l : list A) :
  (forall a, In a l -> f a = false) -> filter f l = [].
Proof.
  induction l as [| a l IH]; intros Hf; simpl; auto.
  rewrite (Hf a (or_introl eq_refl)). apply IH.
  intros b Hb. apply Hf. now right.
Qed.

Lemma Forall2_map_right {A B : Type} (P : A -> B -> Prop) (f : A -> B)
    (l : list A) :
  (forall a, P a (f a)) -> Forall2 P l (map f l).
Proof.
  intros HP. induction l as [| a l IH]; simpl; constructor; auto.
Qed.

Lemma NoDup_map_injective {A B : Type} (f : A -> B) (l : list A) :
  (forall a b, f a = f b -> a = b) -> NoDup l -> NoDup (map f l).
Proof.
  intros Hinj. induction 1 as [| a l Ha Hnd IH]; simpl; constructor; auto.
  intros Hin. apply in_map_iff in Hin. destruct Hin as (b & Heq & Hb).
  apply Hinj in Heq. now subst.
Qed.

Lemma placed_cells {A T C : Type} (f : A -> T) (c : A -> C) (l : list A) :
  flat_map (fun tp : T * option C =>
              match snd tp with
              | Some cell => [cell]
              | None => []
              end)
    (map (fun a => (f a, Some (c a))) l)
  = map c l.
Proof.
  induction l as [| a l IH]; simpl; [| rewrite IH]; reflexivity.
Qed.

Lemma flat_map_ext_In {A B : Type} (f g : A -> list B) (l : list A) :
  (forall a, In a l -> f a = g a) -> flat_map f l = flat_map g l.
Proof.
  induction l as [| a l IH]; intros Hfg; simpl; auto.
  rewrite (Hfg a (or_introl eq_refl)). f_equal.
  apply IH. intros b Hb. apply Hfg. now right.
Qed.

Lemma filter_filter_comm_neq {A : Type} (key : A -> Z) (k k' : Z)
    (l : list A) :
  k <> k' ->
  filter (fun a => key a =? k')
    (filter (fun a => negb (key a =? k)) l)
  = filter (fun a => key a =? k') l.
Proof.
  intros Hne. induction l as [| a l IH]; simpl; auto.
  destruct (key a =? k) eqn:Ek; simpl.
  - apply Z.eqb_eq in Ek.
    assert ((key a =? k') = false) as -> by (apply Z.eqb_neq; lia).
    exact IH.
  - destruct (key a =? k'); simpl; now rewrite IH.
Qed.

(** Splitting a list by key and gluing the pieces back, one piece per key
    of a duplicate-free list that covers every key, only reorders it. *)
Lemma partition_by_key_Permutation {A : Type} (key : A -> Z) (ks : list Z) :
  NoDup ks ->
  forall l : list A,
    (forall a, In a l -> In (key a) ks) ->
    Permutation (flat_map (fun k => filter (fun a => key a =? k) l) ks) l.
Proof.
  induction 1 as [| k ks Hk Hnd IH]; intros l Hcov.
  - destruct l as [| a l]; [constructor |].
    destruct (Hcov a (or_introl eq_refl)).
  - simpl.
    set (rest := filter (fun a => negb (key a =? k)) l).
    assert (Hrest : flat_map (fun k' => filter (fun a => key a =? k') l) ks
                    = flat_map (fun k' => filter (fun a => key a =? k') rest)
                        ks).
    { apply flat_map_ext_In. intros k' Hk'. unfold rest.
      symmetry. apply filter_filter_comm_neq. intros ->. now apply Hk. }
    rewrite Hrest.
    transitivity (filter (fun a => key a =? k) l ++ rest).
    + apply Permutation_app_head. apply IH.
      intros a Ha. unfold rest in Ha. apply filter_In in Ha.
      destruct Ha as [Ha Hne]. destruct (Hcov a Ha) as [Heq | Hin]; auto.
      rewrite Heq, Z.eqb_refl in Hne. discriminate.
    + unfold rest. clear. induction l as [| a l IH]; simpl; auto.
      destruct (key a =? k); simpl.
      * now constructor.
      * symmetry. apply Permutation_cons_app. now symmetry.
Qed.

(** *** [unique] *)

Section UniqueFacts.

Context {A : Type} (eqb : A -> A -> bool).
Hypothesis eqb_spec : forall a b, eqb a b = true <-> a = b.

Lemma existsb_eqb_In (a : A) (l : list A) :
  existsb (eqb a) l = true <-> In a l.
Proof.
  rewrite existsb_exists. split.
  - intros (b & Hb & Heq). apply eqb_spec in Heq. now subst.
  - intros Hin. exists a. split; auto. now apply eqb_spec.
Qed.

Lemma unique_from_In (seen l : list A) (a : A) :
  In a (unique_from eqb seen l) <-> In a l /\ ~ In a seen.
Proof.
  revert seen. induction l as [| b l IH]; intros seen; simpl.
  - tauto.
  - destruct (existsb (eqb b) seen) eqn:E.
    + apply existsb_eqb_In in E. rewrite IH. split.
      * tauto.
      * intros [[-> | Hin] Hns]; tauto.
    + assert (Hb : ~ In b seen).
      { intros Hin. apply existsb_eqb_In in Hin. congruence. }
      simpl. rewrite IH. simpl. split.
      * intros [-> | [Hin Hns]]; tauto.
      * intros [[-> | Hin] Hns]; [now left |].
        destruct (eqb b a) eqn:Eba.
        -- apply eqb_spec in Eba. now left.
        -- right. split; auto. intros [-> | Hs]; [| tauto].
           assert (eqb a a = true) by now apply eqb_spec. congruence.
Qed.

Lemma unique_from_NoDup (seen l : list A) :
  NoDup (unique_from eqb seen l).
Proof.
  revert seen. induction l as [| b l IH]; intros seen; simpl.
  - constructor.
  - destruct (existsb (eqb b) seen); auto.
    constructor; auto.
    rewrite unique_from_In. simpl. tauto.
Qed.

Lemma first_pos_later (a b : A) (l : list A) :
  a <> b -> first_pos eqb a (b :: l) = S (first_pos eqb a l).
Proof.
  intros Hne. unfold first_pos. simpl. destruct (eqb a b) eqn:E; auto.
  apply eqb_spec in E. contradiction.
Qed.

Lemma unique_from_order (seen l : list A) :
  StronglySorted (appears_before eqb l) (unique_from eqb seen l).
Proof.
  revert seen. induction l as [| b l IH]; intros seen; simpl.
  - constructor.
  - assert (Hshift : forall seen',
               In b seen' ->
               StronglySorted (appears_before eqb (b :: l))
                 (unique_from eqb seen' l)).
    { intros seen' Hb.
      apply StronglySorted_In_impl with (R := appears_before eqb l);
        [| apply IH].
      intros c d Hc Hd. apply unique_from_In in Hc, Hd.
      unfold appears_before.
      rewrite !first_pos_later; [lia | |]; intros ->; tauto. }
    destruct (existsb (eqb b) seen) eqn:E.
    + apply Hshift. now apply existsb_eqb_In.
    + constructor.
      * apply Hshift. now left.
      * rewrite Forall_forall. intros c Hc. apply unique_from_In in Hc.
        unfold appears_before. rewrite (first_pos_later c b).
        -- unfold first_pos. simpl.
           assert (eqb b b = true) as -> by now apply eqb_spec. lia.
        -- intros ->. simpl in Hc. tauto.
Qed.

(** What [Series.unique()] returns: each value of the column once, in
    order of first appearance. *)
Lemma unique_spec (l : list A) :
  NoDup (unique eqb l)
  /\ (forall a, In a (unique eqb l) <-> In a l)
  /\ StronglySorted (appears_before eqb l) (unique eqb l).
Proof.
  unfold unique. split; [apply unique_from_NoDup | split].
  - intros a. rewrite unique_from_In. simpl. tauto.
  - apply unique_from_order.
Qed.

End UniqueFacts.

Lemma Z_eqb_spec (a b : Z) : (a =? b) = true <-> a = b.
Proof. apply Z.eqb_eq. Qed.

Lemma String_eqb_spec (a b : string) : String.eqb a b = true <-> a = b.
Proof. apply String.eqb_eq. Qed.

(** On a column that is already in non-decreasing order, [unique] is
    strictly ascending. *)
Lemma unique_from_sorted (seen l : list Z) :
  StronglySorted Z.le l ->
  StronglySorted Z.lt (unique_from Z.eqb seen l).
Proof.
  intros Hs. revert seen.
  induction Hs as [| a l Hs IH Hall]; intros seen; simpl.
  - constructor.
  - destruct (existsb (Z.eqb a) seen); auto.
    constructor; auto.
    rewrite Forall_forall in *. intros b Hb.
    apply (unique_from_In Z.eqb Z_eqb_spec) in Hb.
    destruct Hb as [Hin Hns]. specialize (Hall b Hin).
    assert (a <> b) by (intros ->; apply Hns; now left).
    lia.
Qed.

(** *** [groupby] keys *)

Lemma insert_key_In (k : Z) (ks : list Z) (a : Z) :
  In a (insert_key k ks) <-> a = k \/ In a ks.
Proof.
  induction ks as [| k' ks IH]; simpl.
  - intuition.
  - destruct (k <? k') eqn:Elt; simpl; [intuition |].
    destruct (k =? k') eqn:Eeq; simpl.
    + apply Z.eqb_eq in Eeq. subst. intuition.
    + rewrite IH. intuition.
Qed.

Lemma insert_key_sorted (k : Z) (ks : list Z) :
  StronglySorted Z.lt ks -> StronglySorted Z.lt (insert_key k ks).
Proof.
  induction 1 as [| k' ks Hs IH Hall]; simpl.
  - repeat constructor.
  - destruct (k <? k') eqn:Elt.
    + apply Z.ltb_lt in Elt. constructor.
      * now constructor.
      * constructor; auto. rewrite Forall_forall in *.
        intros b Hb. specialize (Hall b Hb). lia.
    + apply Z.ltb_ge in Elt. destruct (k =? k') eqn:Eeq.
      * now constructor.
      * apply Z.eqb_neq in Eeq. constructor; auto.
        rewrite Forall_forall in *. intros b Hb.
        apply insert_key_In in Hb. destruct Hb as [-> | Hb]; [lia |].
        now apply Hall.
Qed.

Lemma sorted_keys_In (l : list Z) (a : Z) :
  In a (sorted_keys l) <-> In a l.
Proof.
  induction l as [| k l IH]; simpl; [tauto |].
  rewrite insert_key_In, IH. intuition.
Qed.

Lemma sorted_keys_sorted (l : list Z) :
  StronglySorted Z.lt (sorted_keys l).
Proof.
  induction l as [| k l IH]; simpl.
  - constructor.
  - now apply insert_key_sorted.
Qed.

(** *** Rendering of integers *)

Lemma str_int_inj (a b : Z) : str_int a = str_int b -> a = b.
Proof.
  unfold str_int. intros H.
  assert (Some (Z.to_int a) = Some (Z.to_int b)) as Heq.
  { rewrite <- !NilEmpty.isi. now rewrite H. }
  injection Heq as Heq. now apply DecimalZ.to_int_inj.
Qed.

Lemma hour_label_inj (a b : Z) : hour_label a = hour_label b -> a = b.
Proof.
  unfold hour_label. simpl. intros H. injection H as H.
  now apply str_int_inj.
Qed.

(** *** Panel arithmetic *)

Lemma panel_col_in_range (hour : Z) : 1 <= panel_col hour <= 6.
Proof.
  unfold panel_col.
  pose proof (Z.mod_pos_bound (hour - 1) 6 ltac:(lia)). lia.
Qed.

Lemma panel_row_in_range (hour : Z) :
  1 <= panel_row hour <= 4 <-> 1 <= hour <= 24.
Proof.
  unfold panel_row. split; intros H.
  - pose proof (Z.div_mod (hour - 1) 6 ltac:(lia)).
    pose proof (Z.mod_pos_bound (hour - 1) 6 ltac:(lia)). lia.
  - split.
    + assert (0 <= (hour - 1) / 6) by (apply Z.div_pos; lia). lia.
    + assert ((hour - 1) / 6 < 4) by (apply Z.div_lt_upper_bound; lia). lia.
Qed.

(** The cell of an hour determines the hour: panels of different hours do
    not share a cell. *)
Lemma panel_cell_inj (h h' : Z) :
  panel_row h = panel_row h' -> panel_col h = panel_col h' -> h = h'.
Proof.
  unfold panel_row, panel_col. intros Hr Hc.
  pose proof (Z.div_mod (h - 1) 6 ltac:(lia)).
  pose proof (Z.div_mod (h' - 1) 6 ltac:(lia)).
  assert ((h - 1) / 6 = (h' - 1) / 6) as Hq by lia.
  assert ((h - 1) mod 6 = (h' - 1) mod 6) as Hm by lia.
  rewrite Hq, Hm in H. lia.
Qed.

(** The position of the title of the cell of an hour in the title list. *)
Lemma panel_title_index (hour : Z) :
  (panel_row hour - 1) * 6 + (panel_col hour - 1) = hour - 1.
Proof.
  unfold panel_row, panel_col.
  pose proof (Z.div_mod (hour - 1) 6 ltac:(lia)). lia.
Qed.


(** ** The chart builders *)

Section BuilderFacts.

Context {num : Type}.
Implicit Types (w : @World num) (fig : @Figure num) (r : @BidRecord num).

Lemma selection_mask_matches (d u g t : string) r :
  selection_mask (Some d) (Some u) (Some g) (Some t) r = true
  <-> matches d u g t r.
Proof.
  unfold selection_mask, series_eq, matches.
  rewrite !andb_true_iff, !String.eqb_eq. tauto.
Qed.

Lemma selected_rows_In w (d u g t : string) r :
  In r (selected_rows w d u g t) <-> In r (df w) /\ matches d u g t r.
Proof.
  unfold selected_rows. rewrite filter_In, selection_mask_matches. tauto.
Qed.

(** [add_trace] with a cell succeeds exactly on the cells of the grid. *)
Lemma add_trace_at_returns_iff fig (tr : @Scatter num) (g : Subplots)
    (row col : Z) :
  grid fig = Some g ->
  (exists fig', add_trace_at fig tr row col = Ok fig')
  <-> in_grid g row col = true.
Proof.
  intros Hg. unfold add_trace_at, in_grid. rewrite Hg.
  destruct (Z.leb_spec row 0), (Z.leb_spec col 0),
    (Z.ltb_spec (rows g) row), (Z.ltb_spec (cols g) col),
    (Z.leb_spec 1 row), (Z.leb_spec row (rows g)),
    (Z.leb_spec 1 col), (Z.leb_spec col (cols g));
    simpl; try lia;
    (split; [intros [fig' Hfig]; (discriminate || reflexivity)
            | intros Hin; (discriminate || (eexists; reflexivity))]).
Qed.

(** *** The loop of [create_graph1] *)

Lemma plot_loop_ok (groups : list (Z * @DataFrame num)) fig (g : Subplots) :
  grid fig = Some g -> rows g = 4 -> cols g = 6 ->
  Forall (fun p => 1 <= fst p <= 24) groups ->
  for_each plot_hour groups fig
  = Ok {| grid := grid fig;
          data := data fig
                  ++ map (fun p => (hour_markers (fst p) (snd p),
                                    Some (panel_row (fst p),
                                          panel_col (fst p)))) groups;
          layout := layout fig |}.
Proof.
  intros Hg Hr Hc Hall. revert fig Hg.
  induction Hall as [| [h hdf] groups Hh Hall IH]; intros fig Hg; simpl.
  - rewrite app_nil_r. now destruct fig.
  - simpl in Hh. apply panel_row_in_range in Hh.
    pose proof (panel_col_in_range h) as Hcol.
    unfold add_trace_at. rewrite Hg, Hr, Hc.
    destruct (Z.leb_spec (panel_row h) 0); [lia |].
    destruct (Z.leb_spec (panel_col h) 0); [lia |].
    destruct (Z.ltb_spec 4 (panel_row h)); [lia |].
    destruct (Z.ltb_spec 6 (panel_col h)); [lia |].
    simpl. rewrite IH by (simpl; auto). simpl.
    now rewrite <- app_assoc.
Qed.

Lemma plot_loop_raise (groups : list (Z * @DataFrame num)) fig
    (g : Subplots) :
  grid fig = Some g -> rows g = 4 -> cols g = 6 ->
  Exists (fun p => ~ 1 <= fst p <= 24) groups ->
  exists e, for_each plot_hour groups fig = Raise e.
Proof.
  intros Hg Hr Hc Hex. revert fig Hg.
  induction groups as [| [h hdf] groups IH]; intros fig Hg.
  - inversion Hex.
  - simpl. destruct (add_trace_at fig (hour_markers h hdf)
                       (panel_row h) (panel_col h)) as [fig' | e] eqn:Eadd.
    + unfold add_trace_at in Eadd. rewrite Hg, Hr, Hc in Eadd.
      destruct (Z.leb_spec (panel_row h) 0); [discriminate |].
      destruct (Z.leb_spec (panel_col h) 0); [discriminate |].
      destruct (Z.ltb_spec 4 (panel_row h)); [discriminate |].
      destruct (Z.ltb_spec 6 (panel_col h)); [discriminate |].
      simpl in Eadd. injection Eadd as <-.
      apply IH; [| reflexivity].
      inversion Hex as [? ? Hbad | ? ? Hlater]; subst; auto.
      exfalso. apply Hbad. simpl. apply panel_row_in_range. lia.
    + now exists e.
Qed.

Lemma groupby_hour_keys (d : @DataFrame num) :
  map fst (groupby_hour d) = sorted_keys (map hour_ending d).
Proof.
  unfold groupby_hour. rewrite map_map. simpl. apply map_id.
Qed.

Lemma groupby_hour_In (d : @DataFrame num) (h : Z) (hdf : @DataFrame num) :
  In (h, hdf) (groupby_hour d)
  <-> In h (map hour_ending d) /\ hdf = filter (hour_eq h) d.
Proof.
  unfold groupby_hour. split.
  - intros Hin. apply in_map_iff in Hin. destruct Hin as (k & Heq & Hin).
    injection Heq as -> <-. now rewrite <- sorted_keys_In.
  - intros [Hin ->]. apply in_map_iff. exists h.
    now rewrite sorted_keys_In.
Qed.

Lemma groups_in_range_dec (d : @DataFrame num) :
  {Forall (fun p : Z * @DataFrame num => 1 <= fst p <= 24) (groupby_hour d)}
  + {Exists (fun p : Z * @DataFrame num => ~ 1 <= fst p <= 24)
       (groupby_hour d)}.
Proof.
  apply Forall_Exists_dec. intros p.
  destruct (Z_le_dec 1 (fst p)), (Z_le_dec (fst p) 24);
    (left; lia) || (right; lia).
Defined.

Lemma groups_in_range (d : @DataFrame num) :
  Forall (fun p : Z * @DataFrame num => 1 <= fst p <= 24) (groupby_hour d)
  <-> (forall r, In r d -> 1 <= hour_ending r <= 24).
Proof.
  rewrite Forall_forall. split.
  - intros H r Hr.
    apply (H (hour_ending r, filter (hour_eq (hour_ending r)) d)).
    apply groupby_hour_In. split; auto. now apply in_map.
  - intros H [h hdf] Hin. apply groupby_hour_In in Hin.
    destruct Hin as [Hin _]. apply in_map_iff in Hin.
    destruct Hin as (r & <- & Hr). now apply H.
Qed.

(** The traces [create_graph1] holds when its loop ends. *)
Lemma create_graph1_ok w (d u g t : string) :
  (forall r, In r (selected_rows w d u g t) -> 1 <= hour_ending r <= 24) ->
  exists fig,
    fst (create_graph1 (Some d) (Some u) (Some g) (Some t) w) = Ok fig
    /\ grid fig
       = Some {| rows := 4; cols := 6;
                 subplot_titles :=
                   map (fun i => "Hour " +++ str_int (i + 1)) (range 24);
                 horizontal_spacing := 5 # 100;
                 vertical_spacing := 1 # 10 |}
    /\ data fig
       = map (fun p => (hour_markers (fst p) (snd p),
                        Some (panel_row (fst p), panel_col (fst p))))
           (groupby_hour (selected_rows w d u g t))
    /\ showlegend (layout fig) = Some false.
Proof.
  intros Hrange. apply groups_in_range in Hrange.
  unfold create_graph1. simpl.
  fold (selected_rows w d u g t).
  erewrite plot_loop_ok; [| reflexivity | reflexivity | reflexivity
                          | exact Hrange].
  simpl. eexists. repeat split.
Qed.

Lemma create_graph1_raise w (d u g t : string) r :
  In r (selected_rows w d u g t) -> ~ 1 <= hour_ending r <= 24 ->
  exists e,
    fst (create_graph1 (Some d) (Some u) (Some g) (Some t) w) = Raise e.
Proof.
  intros Hin Hbad.
  unfold create_graph1. simpl.
  fold (selected_rows w d u g t).
  match goal with
  | |- context [for_each plot_hour ?gs ?f] =>
      destruct (plot_loop_raise gs f _ eq_refl eq_refl eq_refl) as [e He]
  end.
  - apply Exists_exists.
    exists (hour_ending r,
            filter (hour_eq (hour_ending r)) (selected_rows w d u g t)).
    split; auto. apply groupby_hour_In. split; auto. now apply in_map.
  - rewrite He. now exists e.
Qed.

(** [create_graph1] returns a figure exactly when every selected record
    has its hour between 1 and 24. *)
Lemma create_graph1_returns_iff w (d u g t : string) :
  (exists fig,
      fst (create_graph1 (Some d) (Some u) (Some g) (Some t) w) = Ok fig)
  <-> (forall r, In r (selected_rows w d u g t) ->
                 1 <= hour_ending r <= 24).
Proof.
  split.
  - intros [fig Hok].
    destruct (groups_in_range_dec (selected_rows w d u g t)) as [Hall | Hex].
    + now apply groups_in_range.
    + apply Exists_exists in Hex. destruct Hex as ([h hdf] & Hin & Hbad).
      apply groupby_hour_In in Hin. destruct Hin as [Hin _].
      apply in_map_iff in Hin. destruct Hin as (r & <- & Hr).
      destruct (create_graph1_raise w d u g t r Hr Hbad) as [e He].
      congruence.
  - intros Hrange.
    destruct (create_graph1_ok w d u g t Hrange) as (fig & Hok & _).
    now exists fig.
Qed.

(** *** The loop of [create_graph2] *)

Lemma draw_loop (d : @DataFrame num) (hs : list Z) fig :
  fold_left (draw_hour d) hs fig
  = {| grid := grid fig;
       data := data fig
               ++ map (fun h => (hour_curve h (filter (hour_eq h) d), None))
                    hs;
       layout := layout fig |}.
Proof.
  revert fig. induction hs as [| h hs IH]; intros fig; simpl.
  - rewrite app_nil_r. now destruct fig.
  - rewrite IH. simpl. now rewrite <- app_assoc.
Qed.

Lemma create_graph2_ok w (d u g t : string) :
  exists fig,
    fst (create_graph2 (Some d) (Some u) (Some g) (Some t) w) = Ok fig
    /\ grid fig = None
    /\ data fig
       = map (fun h => (hour_curve h
                          (filter (hour_eq h) (selected_rows w d u g t)),
                        None))
           (unique Z.eqb (map hour_ending (selected_rows w d u g t)))
    /\ showlegend (layout fig) = Some true.
Proof.
  unfold create_graph2. simpl. fold (selected_rows w d u g t).
  rewrite draw_loop. simpl. eexists. repeat split.
Qed.

(** *** Points of the series *)

Lemma combine_columns (d : @DataFrame num) :
  combine (map supply_bid_value d) (map price_bid_value d)
  = map record_point d.
Proof.
  induction d as [| r d IH]; simpl; [| rewrite IH]; reflexivity.
Qed.

Lemma map_flat_map_pieces {A B C : Type} (f : B -> C) (p : A -> list B)
    (l : list A) :
  flat_map (fun a => map f (p a)) l = map f (flat_map p l).
Proof.
  induction l as [| a l IH]; simpl; auto.
  now rewrite map_app, IH.
Qed.

(** Series made of one piece per key, for keys that are distinct and cover
    the hours of the rows, plot the rows' points, each once. *)
Lemma pieces_plot_every_row (d : @DataFrame num) (ks : list Z)
    (series : Z -> @DataFrame num -> @Scatter num)
    (place : Z -> option (Z * Z)) (traces : list (Scatter * option (Z * Z))) :
  (forall h hdf, points (series h hdf) = map record_point hdf) ->
  NoDup ks ->
  (forall h, In h ks <-> In h (map hour_ending d)) ->
  traces = map (fun h => (series h (filter (hour_eq h) d), place h)) ks ->
  Permutation (flat_map (fun tp => points (fst tp)) traces)
    (map record_point d).
Proof.
  intros Hpts Hnd Hcov ->.
  rewrite flat_map_concat_map, map_map, <- flat_map_concat_map. simpl.
  erewrite flat_map_ext by (intros h; apply Hpts).
  rewrite map_flat_map_pieces. apply Permutation_map.
  apply (partition_by_key_Permutation hour_ending ks Hnd).
  intros r Hr. apply Hcov. now apply in_map.
Qed.

End BuilderFacts.

(** ** The dropdown callbacks *)

Section DropdownFacts.

Context {num : Type}.
Implicit Types (w : @World num) (r : @BidRecord num) (d : @DataFrame num).

Lemma StronglySorted_map_inv {A B : Type} (f : A -> B)
    (R : B -> B -> Prop) (l : list A) :
  StronglySorted R (map f l) ->
  StronglySorted (fun a b => R (f a) (f b)) l.
Proof.
  induction l as [| a l IH]; simpl; intros Hs; [constructor |].
  inversion Hs as [| ? ? Hs' Hall]; subst. constructor; auto.
  rewrite Forall_forall in *. intros b Hb. apply Hall. now apply in_map.
Qed.

(** First appearance among the masked rows is first appearance in the
    table: masking keeps the rows in order. *)
Lemma first_pos_masked (col : @BidRecord num -> string)
    (m : @BidRecord num -> bool) d (a b : string) :
  appears_before String.eqb (map col (filter m d)) a b ->
  (first_row (fun r => m r && String.eqb a (col r)) d
   < first_row (fun r => m r && String.eqb b (col r)) d)%nat.
Proof.
  unfold appears_before, first_pos.
  induction d as [| r d IH]; simpl; [lia |].
  destruct (m r); simpl.
  - destruct (String.eqb a (col r)), (String.eqb b (col r)); lia.
  - lia.
Qed.

Lemma dropdown_options_spec (col : @BidRecord num -> string)
    (m : @BidRecord num -> bool) d :
  first_appearance_options col m d
    (map option_of (unique String.eqb (map col (filter m d)))).
Proof.
  destruct (unique_spec String.eqb String_eqb_spec (map col (filter m d)))
    as (Hnd & Hin & Hord).
  assert (Hval : forall vs, map value (map option_of vs) = vs).
  { intros vs. rewrite map_map. simpl. apply map_id. }
  unfold first_appearance_options. rewrite Hval. repeat split; auto.
  - apply Forall_forall. intros o Ho. apply in_map_iff in Ho.
    now destruct Ho as (v & <- & _).
  - intros Hv. apply Hin, in_map_iff in Hv. destruct Hv as (r & <- & Hr).
    apply filter_In in Hr. exists r. tauto.
  - intros (r & Hr & Hm & <-). apply Hin, in_map, filter_In. tauto.
  - apply StronglySorted_map_inv with (f := value)
      (R := fun a b =>
              (first_row (fun r => m r && String.eqb a (col r)) d
               < first_row (fun r => m r && String.eqb b (col r)) d)%nat).
    rewrite Hval.
    apply StronglySorted_In_impl
      with (R := appears_before String.eqb (map col (filter m d))); auto.
    intros a b _ _. apply first_pos_masked.
Qed.

End DropdownFacts.

(** ** The claims *)

Section Claims.

Context {num : Type}.
Implicit Types (w : @World num) (fig : @Figure num) (r : @BidRecord num).

(** C1. With the four selections made, both chart builders draw exactly the
    records whose Delivery Date, Resource Name, QSE and Resource Type equal
    the selections.  The filtered subset holds the matching records of the
    table and no other; the points of the series of a chart are the
    (supply, price) pairs of the filtered subset, each record plotted once.
    [create_graph2] always returns such a chart; [create_graph1] returns
    one exactly when the hours of the subset lie between 1 and 24. *)
Theorem builders_plot_exactly_matching_records w (d u g t : string) :
  (forall r, In r (selected_rows w d u g t)
             <-> In r (df w)
                 /\ delivery_date r = d /\ resource_name r = u
                 /\ qse r = g /\ resource_type r = t)
  /\ (forall fig,
        fst (create_graph1 (Some d) (Some u) (Some g) (Some t) w) = Ok fig ->
        Permutation (plotted_points fig)
          (map record_point (selected_rows w d u g t)))
  /\ ((exists fig,
         fst (create_graph1 (Some d) (Some u) (Some g) (Some t) w) = Ok fig)
      <-> forall r, In r (selected_rows w d u g t) ->
                    1 <= hour_ending r <= 24)
  /\ (exists fig,
        fst (create_graph2 (Some d) (Some u) (Some g) (Some t) w) = Ok fig
        /\ Permutation (plotted_points fig)
             (map record_point (selected_rows w d u g t))).
Proof.
  split; [| split; [| split]].
  - intros r. apply selected_rows_In.
  - intros fig Hok.
    assert (Hrange : forall r, In r (selected_rows w d u g t) ->
                               1 <= hour_ending r <= 24).
    { apply create_graph1_returns_iff. now exists fig. }
    destruct (create_graph1_ok w d u g t Hrange)
      as (fig' & Hok' & _ & Hdata & _).
    assert (fig' = fig) as -> by congruence.
    unfold plotted_points.
    apply pieces_plot_every_row
      with (ks := sorted_keys (map hour_ending (selected_rows w d u g t)))
           (series := hour_markers)
           (place := fun h => Some (panel_row h, panel_col h)).
    + intros h hdf. apply combine_columns.
    + apply StronglySorted_lt_NoDup, sorted_keys_sorted.
    + intros h. apply sorted_keys_In.
    + rewrite Hdata. unfold groupby_hour. now rewrite map_map.
  - apply create_graph1_returns_iff.
  - destruct (create_graph2_ok w d u g t) as (fig & Hok & _ & Hdata & _).
    exists fig. split; auto. unfold plotted_points.
    destruct (unique_spec Z.eqb Z_eqb_spec
                (map hour_ending (selected_rows w d u g t)))
      as (Hnd & Hin & _).
    apply pieces_plot_every_row
      with (ks := unique Z.eqb (map hour_ending (selected_rows w d u g t)))
           (series := hour_curve) (place := fun _ => None); auto.
    intros h hdf. apply combine_columns.
Qed.

(** C2. When at least one of the four selections is absent, each chart
    builder returns the empty chart, a figure without any series, raises
    nothing and leaves the state as it was. *)
Theorem missing_selection_gives_empty_chart w
    (sd su sg st : option string) :
  sd = None \/ su = None \/ sg = None \/ st = None ->
  create_graph1 sd su sg st w = (Ok go_Figure, w)
  /\ create_graph2 sd su sg st w = (Ok go_Figure, w)
  /\ data (@go_Figure num) = []
  /\ grid (@go_Figure num) = None.
Proof.
  intros Hnone. unfold create_graph1, create_graph2.
  assert (is_None sd || is_None su || is_None sg || is_None st = true)
    as ->.
  { destruct Hnone as [-> | [-> | [-> | ->]]]; simpl;
      rewrite ?orb_true_r; reflexivity. }
  repeat split.
Qed.

(** C3. The dispatcher.  With nothing triggered it returns the empty chart
    whatever the selections are.  When the first triggered control is
    btn-graph1 and its click counter is positive it returns what
    [create_graph1] returns on the current selections; when it is
    btn-graph2 with a positive counter, what [create_graph2] returns.  In
    every other state (a button with a counter that is not positive, or a
    control that is neither button) it returns the empty chart. *)
Theorem display_graph_dispatch (btn1 btn2 : Z)
    (sd su sg st : option string) w :
  (triggered w = [] ->
   display_graph btn1 btn2 sd su sg st w = (Ok go_Figure, w))
  /\ (forall prop_id rest,
        triggered w = prop_id :: rest ->
        (split_dot_head prop_id = "btn-graph1"%string -> 0 < btn1 ->
         display_graph btn1 btn2 sd su sg st w
         = create_graph1 sd su sg st w)
        /\ (split_dot_head prop_id = "btn-graph2"%string -> 0 < btn2 ->
            display_graph btn1 btn2 sd su sg st w
            = create_graph2 sd su sg st w)
        /\ (~ (split_dot_head prop_id = "btn-graph1"%string /\ 0 < btn1) ->
            ~ (split_dot_head prop_id = "btn-graph2"%string /\ 0 < btn2) ->
            display_graph btn1 btn2 sd su sg st w = (Ok go_Figure, w))).
Proof.
  unfold display_graph. split.
  - now intros ->.
  - intros prop_id rest ->. repeat split.
    + intros -> Hpos. apply Z.ltb_lt in Hpos. now rewrite Hpos.
    + intros -> Hpos. apply Z.ltb_lt in Hpos. now rewrite Hpos.
    + intros Hn1 Hn2.
      destruct (String.eqb_spec (split_dot_head prop_id) "btn-graph1");
        destruct (String.eqb_spec (split_dot_head prop_id) "btn-graph2");
        destruct (Z.ltb_spec 0 btn1); destruct (Z.ltb_spec 0 btn2);
        simpl; try reflexivity; exfalso; tauto.
Qed.

(** C5. With its upstream selections present, every dropdown callback
    returns the distinct values of the next attribute among the records
    that match all the upstream selections: each value once, label and
    value alike, in the order in which the table first shows them. *)
Theorem dropdown_options_first_appearance w :
  (forall t : string,
     exists opts,
       update_generator_dropdown (Some t) w = (Ok opts, w)
       /\ first_appearance_options qse
            (fun r => String.eqb (resource_type r) t) (df w) opts)
  /\ (forall g t : string,
        exists opts,
          update_unit_dropdown (Some g) (Some t) w = (Ok opts, w)
          /\ first_appearance_options resource_name
               (fun r => String.eqb (qse r) g
                         && String.eqb (resource_type r) t) (df w) opts)
  /\ (forall u g t : string,
        exists opts,
          update_date_dropdown (Some u) (Some g) (Some t) w = (Ok opts, w)
          /\ first_appearance_options delivery_date
               (fun r => String.eqb (resource_name r) u
                         && String.eqb (qse r) g
                         && String.eqb (resource_type r) t) (df w) opts).
Proof.
  repeat split; intros; eexists; (split; [reflexivity |]);
    apply dropdown_options_spec.
Qed.

(** C6. A dropdown callback returns no option as soon as one selection of
    its chain is absent, not only the one it tests: the generator list is
    empty without a resource type, the unit list without a generator or a
    resource type, the date list without a unit, a generator or a resource
    type. *)
Theorem dropdown_empty_when_upstream_absent w :
  update_generator_dropdown None w = (Ok [], w)
  /\ (forall sg st : option string,
        sg = None \/ st = None ->
        update_unit_dropdown sg st w = (Ok [], w))
  /\ (forall su sg st : option string,
        su = None \/ sg = None \/ st = None ->
        update_date_dropdown su sg st w = (Ok [], w)).
Proof.
  split; [reflexivity | split].
  - intros sg st Hnone. unfold update_unit_dropdown.
    destruct sg as [g |]; simpl; [| reflexivity].
    destruct Hnone as [Hg | ->]; [discriminate |].
    rewrite filter_nothing; [reflexivity |].
    intros r _. simpl. apply andb_false_r.
  - intros su sg st Hnone. unfold update_date_dropdown.
    destruct su as [u |]; simpl; [| reflexivity].
    rewrite filter_nothing; [reflexivity |].
    intros r _. destruct Hnone as [Hu | [-> | ->]]; [discriminate | |];
      simpl; rewrite ?andb_false_r; reflexivity.
Qed.

(** C7. With the four selections made, [create_graph2] returns a chart with
    one series for each distinct hour of the filtered subset: the series
    are those of a duplicate-free list of hours that holds exactly the
    hours present in the subset, each is drawn in mode markers+lines from
    the records of its hour, no two share a name, and the legend is
    shown. *)
Theorem overlay_one_series_per_hour w (d u g t : string) :
  exists fig hs,
    fst (create_graph2 (Some d) (Some u) (Some g) (Some t) w) = Ok fig
    /\ NoDup hs
    /\ (forall h, In h hs
                  <-> exists r, In r (selected_rows w d u g t)
                                /\ hour_ending r = h)
    /\ Forall2 (fun h tp =>
                  series_of_hour "markers+lines" (selected_rows w d u g t)
                    h (fst tp))
         hs (data fig)
    /\ NoDup (series_names fig)
    /\ showlegend (layout fig) = Some true.
Proof.
  destruct (create_graph2_ok w d u g t) as (fig & Hok & _ & Hdata & Hleg).
  destruct (unique_spec Z.eqb Z_eqb_spec
              (map hour_ending (selected_rows w d u g t)))
    as (Hnd & Hin & _).
  exists fig, (unique Z.eqb (map hour_ending (selected_rows w d u g t))).
  repeat split; auto.
  - intros Hh. apply Hin, in_map_iff in Hh.
    destruct Hh as (r & Hr & Hrin). now exists r.
  - intros (r & Hr & <-). apply Hin. now apply in_map.
  - rewrite Hdata. apply Forall2_map_right. intros h. repeat split.
  - unfold series_names. rewrite Hdata, map_map. simpl.
    apply NoDup_map_injective; auto. apply hour_label_inj.
Qed.

(** C4. In the chart [create_graph1] returns, the panel of every hour [h]
    of the filtered subset sits at row (h-1) div 6 + 1 and column
    (h-1) mod 6 + 1 of a grid of 4 rows and 6 columns (hour 7: row 2,
    column 1), the title of that panel is "Hour h", every trace of the
    chart is the panel of such an hour, no two traces share a panel, and at
    most 24 panels hold a trace.  The chart is returned whenever the hours
    of the subset lie between 1 and 24. *)
Theorem per_hour_grid_placement w (d u g t : string) :
  panel_row 7 = 2 /\ panel_col 7 = 1
  /\ ((forall r, In r (selected_rows w d u g t) ->
                 1 <= hour_ending r <= 24) ->
      exists fig,
        fst (create_graph1 (Some d) (Some u) (Some g) (Some t) w) = Ok fig)
  /\ forall fig,
       fst (create_graph1 (Some d) (Some u) (Some g) (Some t) w) = Ok fig ->
       (exists gr,
           grid fig = Some gr /\ rows gr = 4 /\ cols gr = 6
           /\ (forall row col, 1 <= row <= 4 -> 1 <= col <= 6 ->
                 panel_title gr row col
                 = Some ("Hour " +++ str_int ((row - 1) * 6 + col)))
           /\ forall r, In r (selected_rows w d u g t) ->
                panel_title gr ((hour_ending r - 1) / 6 + 1)
                  ((hour_ending r - 1) mod 6 + 1)
                = Some ("Hour " +++ str_int (hour_ending r)))
       /\ (forall r, In r (selected_rows w d u g t) ->
             exists tr,
               In (tr, Some ((hour_ending r - 1) / 6 + 1,
                             (hour_ending r - 1) mod 6 + 1)) (data fig)
               /\ series_of_hour "markers" (selected_rows w d u g t)
                    (hour_ending r) tr)
       /\ (forall tr cell, In (tr, cell) (data fig) ->
             exists r,
               In r (selected_rows w d u g t)
               /\ cell = Some ((hour_ending r - 1) / 6 + 1,
                               (hour_ending r - 1) mod 6 + 1)
               /\ series_of_hour "markers" (selected_rows w d u g t)
                    (hour_ending r) tr)
       /\ NoDup (map snd (data fig))
       /\ (List.length (populated_panels fig) <= 24)%nat.
Proof.
  split; [reflexivity | split; [reflexivity | split]].
  - apply create_graph1_returns_iff.
  - intros fig Hok.
    assert (Hrange : forall r, In r (selected_rows w d u g t) ->
                               1 <= hour_ending r <= 24).
    { apply create_graph1_returns_iff. now exists fig. }
    destruct (create_graph1_ok w d u g t Hrange)
      as (fig' & Hok' & Hgrid & Hdata & _).
    assert (fig' = fig) as -> by congruence. clear Hok'.
    set (sel := selected_rows w d u g t) in *.
    assert (Hcells :
              map snd (data fig)
              = map (fun h => Some (panel_row h, panel_col h))
                  (sorted_keys (map hour_ending sel))).
    { rewrite Hdata. unfold groupby_hour. now rewrite !map_map. }
    assert (Hkeys : NoDup (sorted_keys (map hour_ending sel))).
    { apply StronglySorted_lt_NoDup, sorted_keys_sorted. }
    split; [| split; [| split; [| split]]].
    + eexists. split; [exact Hgrid |]. split; [reflexivity |].
      split; [reflexivity |].
      assert (Htitle :
                forall i, 0 <= i < 24 ->
                  nth_error
                    (map (fun i => "Hour " +++ str_int (i + 1)) (range 24))
                    (Z.to_nat i)
                  = Some ("Hour " +++ str_int (i + 1))).
      { intros i Hi. unfold range.
        rewrite !nth_error_map, nth_error_seq.
        assert ((Z.to_nat i <? 24)%nat = true) as ->
          by (apply Nat.ltb_lt; lia).
        simpl. now rewrite Z2Nat.id by lia. }
      split.
      * intros row col Hrow Hcol.
        unfold panel_title. cbn [cols subplot_titles].
        rewrite Htitle by lia. do 3 f_equal. lia.
      * intros r Hr. specialize (Hrange r Hr).
        unfold panel_title. cbn [cols subplot_titles].
        fold (panel_row (hour_ending r)). fold (panel_col (hour_ending r)).
        rewrite panel_title_index, Htitle by lia.
        do 3 f_equal. lia.
    + intros r Hr. eexists. split.
      * rewrite Hdata. apply in_map_iff.
        exists (hour_ending r, filter (hour_eq (hour_ending r)) sel).
        split; [reflexivity |].
        apply groupby_hour_In. split; auto. now apply in_map.
      * repeat split.
    + intros tr cell Hin. rewrite Hdata in Hin. apply in_map_iff in Hin.
      destruct Hin as ([h hdf] & Heq & Hin). simpl in Heq.
      injection Heq as <- <-.
      apply groupby_hour_In in Hin. destruct Hin as [Hin ->].
      apply in_map_iff in Hin. destruct Hin as (r & <- & Hr).
      exists r. repeat split; auto.
    + rewrite Hcells. apply NoDup_map_injective; auto.
      intros h h' Heq. injection Heq as Hr Hc. now apply panel_cell_inj.
    + unfold populated_panels.
      assert (Hflat :
                flat_map (fun tp : Scatter * option (Z * Z) =>
                            match snd tp with
                            | Some cell => [cell]
                            | None => []
                            end) (data fig)
                = map (fun h => (panel_row h, panel_col h))
                    (sorted_keys (map hour_ending sel))).
      { rewrite Hdata. unfold groupby_hour. rewrite map_map.
        apply (placed_cells
                 (fun h => hour_markers h (filter (hour_eq h) sel))
                 (fun h => (panel_row h, panel_col h))). }
      rewrite Hflat, nodup_fixed_point.
      * change 24%nat with (List.length grid_cells).
        apply NoDup_incl_length.
        -- apply NoDup_map_injective; auto.
           intros h h' Heq. injection Heq as Hr Hc.
           now apply panel_cell_inj.
        -- intros cell Hcell. apply in_map_iff in Hcell.
           destruct Hcell as (h & <- & Hh).
           apply sorted_keys_In, in_map_iff in Hh.
           destruct Hh as (r & <- & Hr). specialize (Hrange r Hr).
           apply panel_row_in_range in Hrange.
           pose proof (panel_col_in_range (hour_ending r)).
           apply in_prod; simpl; lia.
      * apply NoDup_map_injective; auto.
        intros h h' Heq. injection Heq as Hr Hc. now apply panel_cell_inj.
Qed.

(** C8, amended.  With the four selections made, the series of the chart
    of [create_graph2] follow the order in which their hours first appear
    in the filtered subset; they are in strictly ascending hour order
    whenever the filtered records are stored in non-decreasing hour
    order. *)
Theorem overlay_series_in_first_appearance_order w (d u g t : string) :
  exists fig hs,
    fst (create_graph2 (Some d) (Some u) (Some g) (Some t) w) = Ok fig
    /\ series_names fig = map hour_label hs
    /\ StronglySorted
         (appears_before Z.eqb
            (map hour_ending (selected_rows w d u g t))) hs
    /\ (StronglySorted Z.le (map hour_ending (selected_rows w d u g t)) ->
        StronglySorted Z.lt hs).
Proof.
  destruct (create_graph2_ok w d u g t) as (fig & Hok & _ & Hdata & _).
  exists fig, (unique Z.eqb (map hour_ending (selected_rows w d u g t))).
  repeat split; auto.
  - unfold series_names. rewrite Hdata, map_map. reflexivity.
  - apply (unique_spec Z.eqb Z_eqb_spec).
  - apply unique_from_sorted.
Qed.

(** C9, amended.  Over one table, every chart builder and every dropdown
    callback returns the same output for the same arguments, whatever the
    callback context is; the dispatcher does so when the list of triggered
    controls is the same too.  No callback changes the table or the
    callback context. *)
Theorem callbacks_deterministic_and_read_only (w1 w2 : @World num) :
  df w1 = df w2 ->
  (forall sd su sg st,
     fst (create_graph1 sd su sg st w1) = fst (create_graph1 sd su sg st w2))
  /\ (forall sd su sg st,
        fst (create_graph2 sd su sg st w1)
        = fst (create_graph2 sd su sg st w2))
  /\ (forall st,
        fst (update_generator_dropdown st w1)
        = fst (update_generator_dropdown st w2))
  /\ (forall sg st,
        fst (update_unit_dropdown sg st w1)
        = fst (update_unit_dropdown sg st w2))
  /\ (forall su sg st,
        fst (update_date_dropdown su sg st w1)
        = fst (update_date_dropdown su sg st w2))
  /\ (triggered w1 = triggered w2 ->
      forall btn1 btn2 sd su sg st,
        fst (display_graph btn1 btn2 sd su sg st w1)
        = fst (display_graph btn1 btn2 sd su sg st w2))
  /\ (forall sd su sg st, snd (create_graph1 sd su sg st w1) = w1)
  /\ (forall sd su sg st, snd (create_graph2 sd su sg st w1) = w1)
  /\ (forall st, snd (update_generator_dropdown st w1) = w1)
  /\ (forall sg st, snd (update_unit_dropdown sg st w1) = w1)
  /\ (forall su sg st, snd (update_date_dropdown su sg st w1) = w1)
  /\ (forall btn1 btn2 sd su sg st,
        snd (display_graph btn1 btn2 sd su sg st w1) = w1).
Proof.
  intros Hdf.
  assert (H1 : forall sd su sg st,
             fst (create_graph1 sd su sg st w1)
             = fst (create_graph1 sd su sg st w2)).
  { intros. unfold create_graph1. rewrite Hdf.
    destruct (is_None sd || is_None su || is_None sg || is_None st);
      [reflexivity |].
    now destruct (for_each plot_hour _ _). }
  assert (H2 : forall sd su sg st,
             fst (create_graph2 sd su sg st w1)
             = fst (create_graph2 sd su sg st w2)).
  { intros. unfold create_graph2. rewrite Hdf.
    now destruct (is_None sd || is_None su || is_None sg || is_None st). }
  assert (S1 : forall w sd su sg st, snd (create_graph1 sd su sg st w) = w).
  { intros. unfold create_graph1.
    destruct (is_None sd || is_None su || is_None sg || is_None st);
      [reflexivity |].
    now destruct (for_each plot_hour _ _). }
  assert (S2 : forall w sd su sg st, snd (create_graph2 sd su sg st w) = w).
  { intros. unfold create_graph2.
    now destruct (is_None sd || is_None su || is_None sg || is_None st). }
  repeat match goal with |- _ /\ _ => split end; auto.
  - intros st. unfold update_generator_dropdown. rewrite Hdf.
    now destruct (is_None st).
  - intros sg st. unfold update_unit_dropdown. rewrite Hdf.
    now destruct (is_None sg).
  - intros su sg st. unfold update_date_dropdown. rewrite Hdf.
    now destruct (is_None su).
  - intros Htr btn1 btn2 sd su sg st. unfold display_graph. rewrite Htr.
    destruct (triggered w2) as [| prop_id rest]; [reflexivity |].
    destruct (String.eqb (split_dot_head prop_id) "btn-graph1"
              && (0 <? btn1)); [apply H1 |].
    destruct (String.eqb (split_dot_head prop_id) "btn-graph2"
              && (0 <? btn2)); [apply H2 | reflexivity].
  - intros st. unfold update_generator_dropdown. now destruct (is_None st).
  - intros sg st. unfold update_unit_dropdown. now destruct (is_None sg).
  - intros su sg st. unfold update_date_dropdown. now destruct (is_None su).
  - intros btn1 btn2 sd su sg st. unfold display_graph.
    destruct (triggered w1) as [| prop_id rest]; [reflexivity |].
    destruct (String.eqb (split_dot_head prop_id) "btn-graph1"
              && (0 <? btn1)); [apply S1 |].
    destruct (String.eqb (split_dot_head prop_id) "btn-graph2"
              && (0 <? btn2)); [apply S2 | reflexivity].
Qed.

(** C10. When every hour of the filtered subset lies between 1 and 24, every
    panel position [create_graph1] computes has its row between 1 and 4 and
    its column between 1 and 6, and the builder returns a chart: no
    [add_trace] raises.  Outside that range the guarantee is lost: hour 25
    is sent to row 5, and one selected record with an hour outside 1..24
    makes the builder raise. *)
Theorem hours_1_to_24_stay_in_grid w (d u g t : string) :
  ((forall r, In r (selected_rows w d u g t) -> 1 <= hour_ending r <= 24) ->
   (forall r, In r (selected_rows w d u g t) ->
              1 <= (hour_ending r - 1) / 6 + 1 <= 4
              /\ 1 <= (hour_ending r - 1) mod 6 + 1 <= 6)
   /\ exists fig,
        fst (create_graph1 (Some d) (Some u) (Some g) (Some t) w) = Ok fig)
  /\ panel_row 25 = 5
  /\ (forall r, In r (selected_rows w d u g t) ->
                ~ 1 <= hour_ending r <= 24 ->
                exists e,
                  fst (create_graph1 (Some d) (Some u) (Some g) (Some t) w)
                  = Raise e).
Proof.
  split; [| split; [reflexivity |]].
  - intros Hrange. split.
    + intros r Hr. specialize (Hrange r Hr). split.
      * now apply panel_row_in_range.
      * apply panel_col_in_range.
    + now apply create_graph1_returns_iff.
  - apply create_graph1_raise.
Qed.

End Claims.

(** ** The claims on the sample data *)

Local Open Scope string_scope.

Lemma builders_plot_exactly_matching_records_witness :
  exists fig,
    fst (create_graph1 (Some "01/01/2023") (Some "UNIT1") (Some "QSE1")
           (Some "CCGT90") after_button1) = Ok fig
    /\ Permutation (plotted_points fig) [(10, 20); (11, 21); (12, 22)].
Proof.
  eexists. split; [reflexivity |].
  apply (proj1 (proj2 (builders_plot_exactly_matching_records
                         after_button1 "01/01/2023" "UNIT1" "QSE1"
                         "CCGT90"))).
  reflexivity.
Defined.

Lemma missing_selection_gives_empty_chart_witness :
  create_graph1 None (Some "UNIT1") (Some "QSE1") (Some "CCGT90")
    after_button1 = (Ok go_Figure, after_button1)
  /\ create_graph2 (Some "01/01/2023") (Some "UNIT1") None (Some "CCGT90")
       after_button2 = (Ok go_Figure, after_button2).
Proof.
  split.
  - apply (missing_selection_gives_empty_chart after_button1
             None (Some "UNIT1") (Some "QSE1") (Some "CCGT90")).
    left. reflexivity.
  - apply (missing_selection_gives_empty_chart after_button2
             (Some "01/01/2023") (Some "UNIT1") None (Some "CCGT90")).
    right. right. left. reflexivity.
Defined.

Lemma display_graph_dispatch_witness :
  display_graph 1 0 (Some "01/01/2023") (Some "UNIT1") (Some "QSE1")
    (Some "CCGT90") after_button1
  = create_graph1 (Some "01/01/2023") (Some "UNIT1") (Some "QSE1")
      (Some "CCGT90") after_button1
  /\ display_graph 1 1 (Some "01/01/2023") (Some "UNIT1") (Some "QSE1")
       (Some "CCGT90") after_button2
     = create_graph2 (Some "01/01/2023") (Some "UNIT1") (Some "QSE1")
         (Some "CCGT90") after_button2
  /\ display_graph 0 0 (Some "01/01/2023") (Some "UNIT1") (Some "QSE1")
       (Some "CCGT90") at_page_load = (Ok go_Figure, at_page_load)
  /\ display_graph 1 1 (Some "01/01/2023") (Some "UNIT1") (Some "QSE1")
       (Some "CCGT90") after_date_change = (Ok go_Figure, after_date_change).
Proof.
  split; [| split; [| split]].
  - apply (proj2 (display_graph_dispatch 1 0 _ _ _ _ after_button1)
             "btn-graph1.n_clicks" [] eq_refl); [reflexivity | lia].
  - apply (proj2 (display_graph_dispatch 1 1 _ _ _ _ after_button2)
             "btn-graph2.n_clicks" [] eq_refl); [reflexivity | lia].
  - apply (proj1 (display_graph_dispatch 0 0 _ _ _ _ at_page_load)).
    reflexivity.
  - apply (proj2 (display_graph_dispatch 1 1 _ _ _ _ after_date_change)
             "date_dropdown.value" [] eq_refl);
      intros [Hid _]; discriminate Hid.
Defined.

Lemma per_hour_grid_placement_witness :
  exists fig,
    fst (create_graph1 (Some "01/01/2023") (Some "UNIT1") (Some "QSE1")
           (Some "CCGT90") after_button1) = Ok fig
    /\ (exists tr, In (tr, Some (2, 1)) (data fig) /\ name tr = "Hour 7")
    /\ NoDup (map snd (data fig))
    /\ (List.length (populated_panels fig) <= 24)%nat.
Proof.
  eexists. split; [reflexivity |].
  destruct (proj2 (proj2 (proj2 (per_hour_grid_placement
                                   after_button1 "01/01/2023" "UNIT1"
                                   "QSE1" "CCGT90"))) _ eq_refl)
    as (_ & Hplace & _ & Hnd & Hlen).
  split; [| split; [exact Hnd | exact Hlen]].
  destruct (Hplace (sample_bid "01/01/2023" 7 10 20)) as (tr & Hin & Hser).
  - vm_compute. left. reflexivity.
  - exists tr. split; [exact Hin | apply Hser].
Defined.

Lemma dropdown_empty_when_upstream_absent_witness :
  update_unit_dropdown (Some "QSE1") None after_button1
  = (Ok [], after_button1)
  /\ update_date_dropdown (Some "UNIT1") None (Some "CCGT90") after_button1
     = (Ok [], after_button1).
Proof.
  split.
  - apply (proj1 (proj2 (dropdown_empty_when_upstream_absent
                           after_button1))).
    right. reflexivity.
  - apply (proj2 (proj2 (dropdown_empty_when_upstream_absent
                           after_button1))).
    right. left. reflexivity.
Defined.

(** C8 as stated fails: the sample table shows hour 7 before hour 1, and
    the overlay draws "Hour 7" before "Hour 1". *)
Lemma overlay_series_not_ascending :
  ~ overlay_series_ascending after_button2
      "01/01/2023" "UNIT1" "QSE1" "CCGT90".
Proof.
  intros (fig & hs & Hok & Hnames & Hsorted).
  assert (Hseen : series_names fig = [hour_label 7; hour_label 1]).
  { injection Hok as <-. reflexivity. }
  rewrite Hseen in Hnames.
  destruct hs as [| a [| b [| c hs]]]; try discriminate Hnames.
  cbn [map] in Hnames. injection Hnames as Ha Hb.
  apply str_int_inj in Ha, Hb. subst a b.
  inversion Hsorted as [| ? ? _ Hall]; subst.
  inversion Hall as [| ? ? Hlt _]; subst. lia.
Qed.

Lemma overlay_series_in_first_appearance_order_witness :
  exists fig hs,
    fst (create_graph2 (Some "01/03/2023") (Some "UNIT1") (Some "QSE1")
           (Some "CCGT90") sorted_world) = Ok fig
    /\ series_names fig = map hour_label hs
    /\ StronglySorted Z.lt hs.
Proof.
  destruct (overlay_series_in_first_appearance_order sorted_world
              "01/03/2023" "UNIT1" "QSE1" "CCGT90")
    as (fig & hs & Hok & Hnames & _ & Hasc).
  exists fig, hs. split; [exact Hok | split; [exact Hnames |]].
  apply Hasc. repeat constructor; simpl; lia.
Defined.

(** C9 as stated fails for the dispatcher: with the same arguments over the
    same table it draws the overlay after a click on btn-graph2 and the
    empty chart after a change of the date dropdown. *)
Lemma dispatcher_output_depends_on_trigger :
  ~ @dispatcher_output_fixed_by_arguments Z.
Proof.
  intros Hfixed.
  specialize (Hfixed 1 1 (Some "01/01/2023") (Some "UNIT1") (Some "QSE1")
                (Some "CCGT90") after_button2 after_date_change eq_refl).
  vm_compute in Hfixed. discriminate Hfixed.
Qed.

Lemma callbacks_deterministic_and_read_only_witness :
  fst (create_graph2 (Some "01/01/2023") (Some "UNIT1") (Some "QSE1")
         (Some "CCGT90") after_button2)
  = fst (create_graph2 (Some "01/01/2023") (Some "UNIT1") (Some "QSE1")
           (Some "CCGT90") after_date_change)
  /\ snd (display_graph 1 1 (Some "01/01/2023") (Some "UNIT1") (Some "QSE1")
            (Some "CCGT90") after_button2) = after_button2.
Proof.
  destruct (callbacks_deterministic_and_read_only
              after_button2 after_date_change eq_refl)
    as (_ & H2 & _ & _ & _ & _ & _ & _ & _ & _ & _ & Hsnd).
  split; [apply H2 | apply Hsnd].
Defined.

Lemma hours_1_to_24_stay_in_grid_witness :
  (exists fig,
      fst (create_graph1 (Some "01/01/2023") (Some "UNIT1") (Some "QSE1")
             (Some "CCGT90") after_button1) = Ok fig)
  /\ fst (create_graph1 (Some "01/01/2023") (Some "UNIT1") (Some "QSE1")
            (Some "CCGT90") late_world) = Raise PairOutOfRange.
Proof.
  split.
  - apply (proj1 (hours_1_to_24_stay_in_grid after_button1
                    "01/01/2023" "UNIT1" "QSE1" "CCGT90")).
    intros r Hr. vm_compute in Hr.
    destruct Hr as [<- | [<- | [<- | []]]]; simpl; lia.
  - destruct (proj2 (proj2 (hours_1_to_24_stay_in_grid late_world
                              "01/01/2023" "UNIT1" "QSE1" "CCGT90"))
                (sample_bid "01/01/2023" 25 14 24))
      as [e He].
    + vm_compute. left. reflexivity.
    + simpl. lia.
    + reflexivity.
Defined.

(** * Further properties of the code *)

Local Close Scope string_scope.

(** ** Panel positions *)

(** X1. The panel position of [create_graph1] is a numbering of the grid
    cells: the hour is recovered from its row and column as
    (row - 1) * 6 + col, for every integer hour, and every cell of the
    4 x 6 grid is the position of exactly that hour, which lies between 1
    and 24. *)
Theorem panel_position_round_trip :
  (forall hour, (panel_row hour - 1) * 6 + panel_col hour = hour)
  /\ (forall row col, 1 <= col <= 6 ->
        panel_row ((row - 1) * 6 + col) = row
        /\ panel_col ((row - 1) * 6 + col) = col)
  /\ (forall row col, 1 <= row <= 4 -> 1 <= col <= 6 ->
        1 <= (row - 1) * 6 + col <= 24).
Proof.
  split; [| split].
  - intros hour. pose proof (panel_title_index hour). lia.
  - intros row col Hcol. unfold panel_row, panel_col.
    replace ((row - 1) * 6 + col - 1) with ((col - 1) + (row - 1) * 6)
      by lia.
    rewrite Z.div_add, Z_mod_plus_full by lia.
    rewrite Z.div_small, Z.mod_small by lia. lia.
  - intros row col Hrow Hcol. lia.
Qed.

Lemma panel_position_round_trip_witness :
  panel_row ((2 - 1) * 6 + 1) = 2 /\ panel_col ((2 - 1) * 6 + 1) = 1
  /\ 1 <= (4 - 1) * 6 + 6 <= 24.
Proof.
  destruct panel_position_round_trip as (_ & Hcell & Hhour).
  destruct (Hcell 2 1 ltac:(lia)) as [Hrow Hcol].
  split; [exact Hrow | split; [exact Hcol |]].
  apply (Hhour 4 6); lia.
Defined.


(** ** The id of the triggering control *)

Lemma split_dot_head_no_dot (s : string) :
  has_no_dot (split_dot_head s) = true.
Proof.
  induction s as [| c s IH]; simpl; auto.
  destruct (Ascii.eqb c ".") eqn:E; simpl; auto.
  now rewrite E, IH.
Qed.

(** X7. [split('.')[0]] recovers the component id from the
    ['id.property'] form of a [prop_id], whatever the property is, when the
    id holds no dot; what it returns never holds a dot, and a string
    without dot is returned whole. *)
Theorem component_id_recovered_from_prop_id :
  (forall id prop : string,
     has_no_dot id = true ->
     split_dot_head (id +++ "." +++ prop) = id)
  /\ (forall s : string, has_no_dot (split_dot_head s) = true)
  /\ (forall s : string, has_no_dot s = true -> split_dot_head s = s).
Proof.
  split; [| split].
  - intros id prop. induction id as [| c id IH]; simpl; auto.
    intros Hid. apply andb_true_iff in Hid. destruct Hid as [Hc Hid].
    apply negb_true_iff in Hc. rewrite Hc. f_equal. now apply IH.
  - apply split_dot_head_no_dot.
  - intros s. induction s as [| c s IH]; simpl; auto.
    intros Hs. apply andb_true_iff in Hs. destruct Hs as [Hc Hs].
    apply negb_true_iff in Hc. rewrite Hc. f_equal. now apply IH.
Qed.

Lemma component_id_recovered_from_prop_id_witness :
  split_dot_head ("btn-graph2" +++ "." +++ "n_clicks") = "btn-graph2"%string
  /\ split_dot_head "btn-graph1" = "btn-graph1"%string.
Proof.
  destruct component_id_recovered_from_prop_id as (Hid & _ & Hwhole).
  split.
  - apply Hid. reflexivity.
  - apply Hwhole. reflexivity.
Defined.

(** ** The series of the two charts *)

Section SeriesFacts.

Context {num : Type}.
Implicit Types (w : @World num) (fig : @Figure num) (r : @BidRecord num).

(** The traces of a chart [create_graph1] returned, one per key. *)
Lemma create_graph1_data w (d u g t : string) fig :
  fst (create_graph1 (Some d) (Some u) (Some g) (Some t) w) = Ok fig ->
  (forall r, In r (selected_rows w d u g t) -> 1 <= hour_ending r <= 24)
  /\ data fig
     = map (fun h => (hour_markers h
                        (filter (hour_eq h) (selected_rows w d u g t)),
                      Some (panel_row h, panel_col h)))
         (sorted_keys (map hour_ending (selected_rows w d u g t))).
Proof.
  intros Hok.
  assert (Hrange : forall r, In r (selected_rows w d u g t) ->
                             1 <= hour_ending r <= 24).
  { apply create_graph1_returns_iff. now exists fig. }
  split; auto.
  destruct (create_graph1_ok w d u g t Hrange) as (fig' & Hok' & _ & Hd & _).
  assert (fig' = fig) as -> by congruence.
  rewrite Hd. unfold groupby_hour. now rewrite map_map.
Qed.

Lemma hour_group_nonempty (d : @DataFrame num) (h : Z) :
  In h (map hour_ending d) -> filter (hour_eq h) d <> [].
Proof.
  intros Hin. apply in_map_iff in Hin. destruct Hin as (r & Hh & Hr).
  assert (Hf : In r (filter (hour_eq h) d)).
  { apply filter_In. split; auto. unfold hour_eq. now apply Z.eqb_eq. }
  intros Hnil. now rewrite Hnil in Hf.
Qed.

Lemma group_series_well_formed (d : @DataFrame num) (h : Z)
    (series : Z -> @DataFrame num -> @Scatter num)
    (place : option (Z * Z)) :
  (forall hdf, x (series h hdf) = map supply_bid_value hdf) ->
  (forall hdf, y (series h hdf) = map price_bid_value hdf) ->
  In h (map hour_ending d) ->
  well_formed_series (series h (filter (hour_eq h) d), place).
Proof.
  intros Hx Hy Hin. unfold well_formed_series. simpl.
  rewrite Hx, Hy, !length_map. split; auto.
  apply hour_group_nonempty in Hin.
  destruct (filter (hour_eq h) d); [contradiction | simpl; lia].
Qed.

(** X2. Whatever the order of the table, the series of a chart
    [create_graph1] returns are in strictly ascending hour order, one for
    each hour of the filtered subset. *)
Theorem per_hour_grid_series_ascending w (d u g t : string) fig :
  fst (create_graph1 (Some d) (Some u) (Some g) (Some t) w) = Ok fig ->
  exists hs,
    series_names fig = map hour_label hs
    /\ StronglySorted Z.lt hs
    /\ (forall h, In h hs
                  <-> exists r, In r (selected_rows w d u g t)
                                /\ hour_ending r = h).
Proof.
  intros Hok. apply create_graph1_data in Hok. destruct Hok as [_ Hdata].
  exists (sorted_keys (map hour_ending (selected_rows w d u g t))).
  split; [| split].
  - unfold series_names. rewrite Hdata, map_map. reflexivity.
  - apply sorted_keys_sorted.
  - intros h. rewrite sorted_keys_In, in_map_iff.
    split; intros (r & H1 & H2); now exists r.
Qed.

(** X3. When [create_graph1] returns a chart, [create_graph2] draws the
    same series on the same selections: the same names with the same x and
    y values, up to the order of the series. *)
Theorem builders_draw_same_series w (d u g t : string) fig1 :
  fst (create_graph1 (Some d) (Some u) (Some g) (Some t) w) = Ok fig1 ->
  exists fig2,
    fst (create_graph2 (Some d) (Some u) (Some g) (Some t) w) = Ok fig2
    /\ Permutation (map series_content (data fig1))
         (map series_content (data fig2)).
Proof.
  intros Hok. apply create_graph1_data in Hok. destruct Hok as [_ Hd1].
  destruct (create_graph2_ok w d u g t) as (fig2 & Hok2 & _ & Hd2 & _).
  exists fig2. split; auto.
  rewrite Hd1, Hd2, !map_map. unfold series_content. simpl.
  apply Permutation_map.
  destruct (unique_spec Z.eqb Z_eqb_spec
              (map hour_ending (selected_rows w d u g t)))
    as (Hnd & Hin & _).
  apply NoDup_Permutation; auto.
  - apply StronglySorted_lt_NoDup, sorted_keys_sorted.
  - intros h. now rewrite sorted_keys_In, Hin.
Qed.

(** X4. No series of either chart is empty or ragged: each holds as many x
    as y values, and at least one. *)
Theorem series_never_empty w (d u g t : string) :
  (forall fig,
     fst (create_graph1 (Some d) (Some u) (Some g) (Some t) w) = Ok fig ->
     Forall well_formed_series (data fig))
  /\ (exists fig,
        fst (create_graph2 (Some d) (Some u) (Some g) (Some t) w) = Ok fig
        /\ Forall well_formed_series (data fig)).
Proof.
  split.
  - intros fig Hok. apply create_graph1_data in Hok.
    destruct Hok as [_ Hdata]. rewrite Hdata.
    apply Forall_forall. intros tp Htp. apply in_map_iff in Htp.
    destruct Htp as (h & <- & Hh). rewrite sorted_keys_In in Hh.
    apply (group_series_well_formed _ h hour_markers); auto.
  - destruct (create_graph2_ok w d u g t) as (fig & Hok & _ & Hdata & _).
    exists fig. split; auto. rewrite Hdata.
    apply Forall_forall. intros tp Htp. apply in_map_iff in Htp.
    destruct Htp as (h & <- & Hh).
    destruct (unique_spec Z.eqb Z_eqb_spec
                (map hour_ending (selected_rows w d u g t)))
      as (_ & Hin & _).
    apply (group_series_well_formed _ h hour_curve); auto.
    now apply Hin.
Qed.

Lemma selected_rows_empty_iff w (d u g t : string) :
  selected_rows w d u g t = []
  <-> (forall r, In r (df w) -> ~ matches d u g t r).
Proof.
  split.
  - intros Hnil r Hr Hm.
    assert (Hin : In r (selected_rows w d u g t))
      by (apply selected_rows_In; auto).
    now rewrite Hnil in Hin.
  - intros Hno. apply filter_nothing. intros r Hr.
    destruct (selection_mask (Some d) (Some u) (Some g) (Some t) r) eqn:E;
      auto.
    apply selection_mask_matches in E. now destruct (Hno r Hr).
Qed.

Lemma keys_empty_iff (l : list Z) : sorted_keys l = [] <-> l = [].
Proof.
  split; [| now intros ->].
  destruct l as [| a l]; auto. intros Hnil.
  assert (Hin : In a (sorted_keys (a :: l)))
    by (apply sorted_keys_In; now left).
  now rewrite Hnil in Hin.
Qed.

Lemma unique_empty_iff (l : list Z) : unique Z.eqb l = [] <-> l = [].
Proof.
  split; [| now intros ->].
  destruct l as [| a l]; auto. discriminate.
Qed.

(** X5. With the four selections made, a chart builder returns a chart
    without any series exactly when no record of the table matches the
    selections; [create_graph1] cannot raise then. *)
Theorem no_matching_record_no_series w (d u g t : string) :
  ((forall r, In r (df w) -> ~ matches d u g t r)
   <-> exists fig,
         fst (create_graph1 (Some d) (Some u) (Some g) (Some t) w) = Ok fig
         /\ data fig = [])
  /\ ((forall r, In r (df w) -> ~ matches d u g t r)
      <-> exists fig,
            fst (create_graph2 (Some d) (Some u) (Some g) (Some t) w)
            = Ok fig
            /\ data fig = []).
Proof.
  rewrite <- selected_rows_empty_iff. split; split.
  - intros Hnil.
    destruct (create_graph1_ok w d u g t) as (fig & Hok & _ & Hdata & _).
    { rewrite Hnil. intros r []. }
    exists fig. split; auto. now rewrite Hdata, Hnil.
  - intros (fig & Hok & Hnil). apply create_graph1_data in Hok.
    destruct Hok as [_ Hdata]. rewrite Hdata in Hnil.
    apply map_eq_nil, keys_empty_iff, map_eq_nil in Hnil. exact Hnil.
  - intros Hnil.
    destruct (create_graph2_ok w d u g t) as (fig & Hok & _ & Hdata & _).
    exists fig. split; auto. now rewrite Hdata, Hnil.
  - intros (fig & Hok & Hnil).
    destruct (create_graph2_ok w d u g t) as (fig' & Hok' & _ & Hdata & _).
    assert (fig' = fig) as -> by congruence.
    rewrite Hdata in Hnil.
    apply map_eq_nil, unique_empty_iff, map_eq_nil in Hnil. exact Hnil.
Qed.

End SeriesFacts.

(** ** Which exception the grid builder raises *)

Section GridErrors.

Context {num : Type}.
Implicit Types (w : @World num) (fig : @Figure num) (r : @BidRecord num).

Lemma plot_loop_row_raise (groups : list (Z * @DataFrame num)) fig
    (g : Subplots) (h : Z) (hdf : @DataFrame num) :
  grid fig = Some g -> h < 1 ->
  for_each plot_hour ((h, hdf) :: groups) fig = Raise RowOutOfRange.
Proof.
  intros Hg Hh. simpl. unfold add_trace_at. rewrite Hg.
  assert (Hrow : panel_row h <= 0).
  { unfold panel_row.
    assert ((h - 1) / 6 < 0) by (apply Z.div_lt_upper_bound; lia). lia. }
  apply Z.leb_le in Hrow. now rewrite Hrow.
Qed.

Lemma plot_loop_pair_raise (groups : list (Z * @DataFrame num)) fig
    (g : Subplots) :
  grid fig = Some g -> rows g = 4 -> cols g = 6 ->
  Forall (fun p => 1 <= fst p) groups ->
  Exists (fun p => 24 < fst p) groups ->
  for_each plot_hour groups fig = Raise PairOutOfRange.
Proof.
  intros Hg Hr Hc Hall Hex. revert fig Hg.
  induction Hall as [| [h hdf] groups Hh Hall IH]; intros fig Hg.
  - inversion Hex.
  - simpl in Hh. simpl. unfold add_trace_at. rewrite Hg, Hr, Hc.
    pose proof (panel_col_in_range h) as Hcol.
    assert (Hrow : 1 <= panel_row h).
    { unfold panel_row.
      assert (0 <= (h - 1) / 6) by (apply Z.div_pos; lia). lia. }
    destruct (Z.leb_spec (panel_row h) 0); [lia |].
    destruct (Z.leb_spec (panel_col h) 0); [lia |].
    destruct (Z.ltb_spec 6 (panel_col h)); [lia |].
    rewrite orb_false_r.
    destruct (Z.ltb_spec 4 (panel_row h)) as [Hbig | Hsmall];
      [reflexivity |].
    apply IH; [| reflexivity].
    inversion Hex as [? ? Hlate | ? ? Hlater]; subst; auto.
    simpl in Hlate.
    assert (1 <= h <= 24) by (apply panel_row_in_range; lia). lia.
Qed.

Lemma least_key_first (l : list Z) (a : Z) :
  In a l -> exists k ks, sorted_keys l = k :: ks /\ k <= a.
Proof.
  intros Hin. apply sorted_keys_In in Hin.
  pose proof (sorted_keys_sorted l) as Hs.
  destruct (sorted_keys l) as [| k ks]; [destruct Hin |].
  exists k, ks. split; auto.
  inversion Hs as [| ? ? _ Hall]; subst. rewrite Forall_forall in Hall.
  destruct Hin as [-> | Hin]; [lia |]. specialize (Hall a Hin). lia.
Qed.

(** X6. The groups are plotted in ascending hour order, so the least hour
    decides how [create_graph1] fails: with a selected hour below 1 (and
    above the least int64, where [hour - 1] does not wrap) the row is
    refused first; with every selected hour at least 1 and one above 24
    the (row, col) pair is refused.  The column is never the cause. *)
Theorem grid_exception_by_least_hour w (d u g t : string) :
  ((exists r, In r (selected_rows w d u g t) /\ hour_ending r < 1) ->
   (forall r, In r (selected_rows w d u g t) -> - 2 ^ 63 < hour_ending r) ->
   fst (create_graph1 (Some d) (Some u) (Some g) (Some t) w)
   = Raise RowOutOfRange)
  /\ ((forall r, In r (selected_rows w d u g t) -> 1 <= hour_ending r) ->
      (exists r, In r (selected_rows w d u g t) /\ 24 < hour_ending r) ->
      fst (create_graph1 (Some d) (Some u) (Some g) (Some t) w)
      = Raise PairOutOfRange)
  /\ (forall e,
        fst (create_graph1 (Some d) (Some u) (Some g) (Some t) w) = Raise e ->
        e = RowOutOfRange \/ e = PairOutOfRange).
Proof.
  assert (Hrow :
            (exists r, In r (selected_rows w d u g t) /\ hour_ending r < 1) ->
            fst (create_graph1 (Some d) (Some u) (Some g) (Some t) w)
            = Raise RowOutOfRange).
  { intros (r & Hr & Hlow).
    destruct (least_key_first (map hour_ending (selected_rows w d u g t))
                (hour_ending r)) as (k & ks & Hkeys & Hk).
    { now apply in_map. }
    unfold create_graph1. simpl. fold (selected_rows w d u g t).
    unfold groupby_hour. rewrite Hkeys. cbn [map].
    erewrite plot_loop_row_raise; [reflexivity | reflexivity | lia]. }
  assert (Hpair :
            (forall r, In r (selected_rows w d u g t) ->
                       1 <= hour_ending r) ->
            (exists r, In r (selected_rows w d u g t)
                       /\ 24 < hour_ending r) ->
            fst (create_graph1 (Some d) (Some u) (Some g) (Some t) w)
            = Raise PairOutOfRange).
  { intros Hlow (r & Hr & Hlate).
    unfold create_graph1. simpl. fold (selected_rows w d u g t).
    erewrite plot_loop_pair_raise;
      [reflexivity | reflexivity | reflexivity | reflexivity | |].
    - apply Forall_forall. intros [h hdf] Hin.
      apply groupby_hour_In in Hin. destruct Hin as [Hin _].
      apply in_map_iff in Hin. destruct Hin as (r' & <- & Hr').
      now apply Hlow.
    - apply Exists_exists.
      exists (hour_ending r,
              filter (hour_eq (hour_ending r)) (selected_rows w d u g t)).
      split; auto. apply groupby_hour_In. split; auto. now apply in_map.
  }
  split; [| split]; auto.
  intros e He.
  destruct (Forall_Exists_dec (fun r : @BidRecord num => 1 <= hour_ending r)
              (fun r => Z_le_dec 1 (hour_ending r))
              (selected_rows w d u g t)) as [Hall | Hex].
  - rewrite Forall_forall in Hall.
    destruct (groups_in_range_dec (selected_rows w d u g t)) as [Hin | Hout].
    + pose proof (proj1 (groups_in_range _) Hin) as Hrange.
      destruct (create_graph1_ok w d u g t Hrange) as (fig & Hok & _).
      congruence.
    + apply Exists_exists in Hout. destruct Hout as ([h hdf] & Hin & Hbad).
      apply groupby_hour_In in Hin. destruct Hin as [Hin _].
      apply in_map_iff in Hin. destruct Hin as (r & <- & Hr).
      simpl in Hbad. specialize (Hall r Hr) as Hone.
      rewrite Hpair in He; auto.
      * right. congruence.
      * exists r. split; auto. lia.
  - apply Exists_exists in Hex. destruct Hex as (r & Hr & Hlow).
    rewrite Hrow in He.
    + left. congruence.
    + exists r. split; auto. lia.
Qed.

End GridErrors.

(** ** What the dispatcher can show *)

Section DispatcherFacts.

Context {num : Type}.
Implicit Types (w : @World num) (fig : @Figure num) (r : @BidRecord num).

Lemma create_graph2_returns (sd su sg st : option string) w :
  exists fig, fst (create_graph2 sd su sg st w) = Ok fig.
Proof.
  unfold create_graph2.
  destruct (is_None sd || is_None su || is_None sg || is_None st);
    eexists; reflexivity.
Qed.

Lemma selections_present (sd su sg st : option string) :
  is_None sd || is_None su || is_None sg || is_None st = false ->
  exists d u g t, sd = Some d /\ su = Some u /\ sg = Some g /\ st = Some t.
Proof.
  destruct sd as [d |], su as [u |], sg as [g |], st as [t |];
    simpl; try discriminate.
  intros _. now exists d, u, g, t.
Qed.

(** A chart with a series needs the four selections and a matching
    record. *)
Lemma create_graph1_series_inv (sd su sg st : option string) w fig :
  fst (create_graph1 sd su sg st w) = Ok fig -> data fig <> [] ->
  exists d u g t r,
    sd = Some d /\ su = Some u /\ sg = Some g /\ st = Some t
    /\ In r (df w) /\ matches d u g t r.
Proof.
  intros Hok Hdata.
  destruct (is_None sd || is_None su || is_None sg || is_None st) eqn:E.
  - unfold create_graph1 in Hok. rewrite E in Hok.
    injection Hok as <-. now destruct Hdata.
  - destruct (selections_present _ _ _ _ E)
      as (d & u & g & t & -> & -> & -> & ->).
    apply create_graph1_data in Hok. destruct Hok as [_ Hd].
    destruct (selected_rows w d u g t) as [| r rest] eqn:Hsel.
    + now rewrite Hd in Hdata.
    + assert (Hr : In r (selected_rows w d u g t))
        by (rewrite Hsel; now left).
      apply selected_rows_In in Hr. exists d, u, g, t, r. tauto.
Qed.

Lemma create_graph2_series_inv (sd su sg st : option string) w fig :
  fst (create_graph2 sd su sg st w) = Ok fig -> data fig <> [] ->
  exists d u g t r,
    sd = Some d /\ su = Some u /\ sg = Some g /\ st = Some t
    /\ In r (df w) /\ matches d u g t r.
Proof.
  intros Hok Hdata.
  destruct (is_None sd || is_None su || is_None sg || is_None st) eqn:E.
  - unfold create_graph2 in Hok. rewrite E in Hok.
    injection Hok as <-. now destruct Hdata.
  - destruct (selections_present _ _ _ _ E)
      as (d & u & g & t & -> & -> & -> & ->).
    destruct (create_graph2_ok w d u g t) as (fig' & Hok' & _ & Hd & _).
    assert (fig' = fig) as -> by congruence.
    destruct (selected_rows w d u g t) as [| r rest] eqn:Hsel.
    + now rewrite Hd in Hdata.
    + assert (Hr : In r (selected_rows w d u g t))
        by (rewrite Hsel; now left).
      apply selected_rows_In in Hr. exists d, u, g, t, r. tauto.
Qed.

Lemma create_graph1_raise_inv (sd su sg st : option string) w e :
  fst (create_graph1 sd su sg st w) = Raise e ->
  exists d u g t r,
    sd = Some d /\ su = Some u /\ sg = Some g /\ st = Some t
    /\ In r (selected_rows w d u g t) /\ ~ 1 <= hour_ending r <= 24.
Proof.
  intros Hraise.
  destruct (is_None sd || is_None su || is_None sg || is_None st) eqn:E.
  - unfold create_graph1 in Hraise. rewrite E in Hraise. discriminate.
  - destruct (selections_present _ _ _ _ E)
      as (d & u & g & t & -> & -> & -> & ->).
    destruct (groups_in_range_dec (selected_rows w d u g t)) as [Hin | Hout].
    + pose proof (proj1 (groups_in_range _) Hin) as Hrange.
      destruct (create_graph1_ok w d u g t Hrange) as (fig & Hok & _).
      congruence.
    + apply Exists_exists in Hout. destruct Hout as ([h hdf] & Hin & Hbad).
      apply groupby_hour_In in Hin. destruct Hin as [Hin _].
      apply in_map_iff in Hin. destruct Hin as (r & <- & Hr).
      exists d, u, g, t, r. tauto.
Qed.

(** X8. The dispatcher shows a series only after a click and on a full
    selection.  While both click counters are still at their initial 0 (or
    below), it returns the empty chart at every event.  A chart it returns
    with at least one series was asked for by btn-graph1 or btn-graph2 with
    a positive counter, with the four selections present and at least one
    record of the table matching them. *)
Theorem dispatcher_draws_only_after_click (btn1 btn2 : Z)
    (sd su sg st : option string) w :
  (btn1 <= 0 -> btn2 <= 0 ->
   display_graph btn1 btn2 sd su sg st w = (Ok go_Figure, w))
  /\ (forall fig,
        fst (display_graph btn1 btn2 sd su sg st w) = Ok fig ->
        data fig <> [] ->
        (exists prop_id rest,
            triggered w = prop_id :: rest
            /\ ((split_dot_head prop_id = "btn-graph1"%string /\ 0 < btn1)
                \/ (split_dot_head prop_id = "btn-graph2"%string
                    /\ 0 < btn2)))
        /\ exists d u g t r,
             sd = Some d /\ su = Some u /\ sg = Some g /\ st = Some t
             /\ In r (df w) /\ matches d u g t r).
Proof.
  unfold display_graph. split.
  - intros H1 H2. destruct (triggered w) as [| prop_id rest]; auto.
    destruct (Z.ltb_spec 0 btn1); [lia |].
    destruct (Z.ltb_spec 0 btn2); [lia |].
    now rewrite !andb_false_r.
  - intros fig Hok Hdata.
    destruct (triggered w) as [| prop_id rest].
    { injection Hok as <-. now destruct Hdata. }
    destruct (String.eqb_spec (split_dot_head prop_id) "btn-graph1")
      as [Hid1 | Hid1];
      destruct (Z.ltb_spec 0 btn1) as [Hpos1 | Hpos1]; simpl in Hok;
      try (split;
           [ exists prop_id, rest; split; [reflexivity | left; now split]
           | now apply (create_graph1_series_inv sd su sg st w fig) ]);
      (destruct (String.eqb_spec (split_dot_head prop_id) "btn-graph2")
         as [Hid2 | Hid2];
       destruct (Z.ltb_spec 0 btn2) as [Hpos2 | Hpos2]; simpl in Hok;
       try (injection Hok as <-; now destruct Hdata);
       split;
       [ exists prop_id, rest; split; [reflexivity | right; now split]
       | now apply (create_graph2_series_inv sd su sg st w fig) ]).
Qed.

(** X9. The dispatcher raises only from the grid builder: when it raises,
    its first triggered control is btn-graph1 with a positive counter, the
    four selections are present and one selected record has its hour
    outside 1..24.  After btn-graph2, or a dropdown change, it always
    returns a chart. *)
Theorem dispatcher_raises_only_from_grid (btn1 btn2 : Z)
    (sd su sg st : option string) w (e : Exception) :
  fst (display_graph btn1 btn2 sd su sg st w) = Raise e ->
  (exists prop_id rest,
      triggered w = prop_id :: rest
      /\ split_dot_head prop_id = "btn-graph1"%string /\ 0 < btn1)
  /\ exists d u g t r,
       sd = Some d /\ su = Some u /\ sg = Some g /\ st = Some t
       /\ In r (selected_rows w d u g t) /\ ~ 1 <= hour_ending r <= 24.
Proof.
  unfold display_graph. intros Hraise.
  destruct (triggered w) as [| prop_id rest]; [discriminate |].
  destruct (String.eqb_spec (split_dot_head prop_id) "btn-graph1")
    as [Hid1 | Hid1];
    destruct (Z.ltb_spec 0 btn1) as [Hpos1 | Hpos1]; simpl in Hraise;
    try (split;
         [ exists prop_id, rest; now repeat split
         | now apply (create_graph1_raise_inv sd su sg st w e) ]);
    (destruct (String.eqb (split_dot_head prop_id) "btn-graph2"
               && (0 <? btn2)); [| discriminate];
     destruct (create_graph2_returns sd su sg st w) as [fig Hfig];
     congruence).
Qed.

End DispatcherFacts.

(** ** The cascade from the layout to the charts *)

Section CascadeFacts.

Context {num : Type}.
Implicit Types (w : @World num) (r : @BidRecord num).

Lemma filter_everything {A : Type} (l : list A) :
  filter (fun _ => true) l = l.
Proof.
  induction l as [| a l IH]; simpl; [| rewrite IH]; reflexivity.
Qed.

(** An option list is empty exactly when no row passes the upstream
    mask, and every option it offers is held by such a row. *)
Lemma first_appearance_options_offers (col : @BidRecord num -> string)
    (m : @BidRecord num -> bool) (d : @DataFrame num)
    (opts : list DropdownOption) :
  first_appearance_options col m d opts ->
  (forall o, In o opts ->
             exists r, In r d /\ m r = true /\ col r = value o)
  /\ ((exists r, In r d /\ m r = true) -> opts <> []).
Proof.
  intros (_ & _ & Hin & _). split.
  - intros o Ho. apply Hin. now apply in_map.
  - intros (r & Hr & Hm) Hnil.
    assert (Hv : In (col r) (map value opts)) by (apply Hin; now exists r).
    now rewrite Hnil in Hv.
Qed.

(** X10. The resource type dropdown of the layout offers the distinct
    resource types of the whole table: each once, label and value alike,
    in the order in which the table first shows them. *)
Theorem resource_type_options_first_appearance w :
  first_appearance_options resource_type (fun _ => true) (df w)
    (resource_type_options w).
Proof.
  unfold resource_type_options.
  pose proof (dropdown_options_spec resource_type (fun _ => true) (df w))
    as Hspec.
  now rewrite filter_everything in Hspec.
Qed.

(** X11. The cascade has no dead end.  A resource type the layout offers
    gives a generator list that is not empty; a generator offered for it
    gives a unit list that is not empty; a unit offered for both gives a
    date list that is not empty; and a date offered for the three selects
    at least one record, so that the overlay has a series and the grid, if
    it is returned, has one too. *)
Theorem cascade_offers_lead_somewhere w :
  (forall o, In o (resource_type_options w) ->
     exists opts,
       update_generator_dropdown (Some (value o)) w = (Ok opts, w)
       /\ opts <> [])
  /\ (forall (t : string) opts o,
        update_generator_dropdown (Some t) w = (Ok opts, w) ->
        In o opts ->
        exists opts',
          update_unit_dropdown (Some (value o)) (Some t) w = (Ok opts', w)
          /\ opts' <> [])
  /\ (forall (g t : string) opts o,
        update_unit_dropdown (Some g) (Some t) w = (Ok opts, w) ->
        In o opts ->
        exists opts',
          update_date_dropdown (Some (value o)) (Some g) (Some t) w
          = (Ok opts', w)
          /\ opts' <> [])
  /\ (forall (u g t : string) opts o,
        update_date_dropdown (Some u) (Some g) (Some t) w = (Ok opts, w) ->
        In o opts ->
        selected_rows w (value o) u g t <> []
        /\ (exists fig,
              fst (create_graph2 (Some (value o)) (Some u) (Some g)
                     (Some t) w) = Ok fig
              /\ data fig <> [])
        /\ (forall fig,
              fst (create_graph1 (Some (value o)) (Some u) (Some g)
                     (Some t) w) = Ok fig ->
              data fig <> [])).
Proof.
  split; [| split; [| split]].
  - intros o Ho.
    destruct (first_appearance_options_offers _ _ _ _
                (resource_type_options_first_appearance w)) as [Hoff _].
    destruct (Hoff o Ho) as (r & Hr & _ & Ht).
    eexists. split; [reflexivity |].
    apply (first_appearance_options_offers qse
             (series_eq resource_type (Some (value o))) (df w)).
    + apply dropdown_options_spec.
    + exists r. split; auto. simpl. now apply String.eqb_eq.
  - intros t opts o Hopts Ho. injection Hopts as <-.
    destruct (first_appearance_options_offers _ _ _ _
                (dropdown_options_spec qse
                   (series_eq resource_type (Some t)) (df w))) as [Hoff _].
    destruct (Hoff o Ho) as (r & Hr & Hm & Hg).
    eexists. split; [reflexivity |].
    apply (first_appearance_options_offers resource_name
             (fun r => series_eq qse (Some (value o)) r
                       && series_eq resource_type (Some t) r) (df w)).
    + apply dropdown_options_spec.
    + exists r. split; auto. simpl in *.
      rewrite Hm, andb_true_r. now apply String.eqb_eq.
  - intros g t opts o Hopts Ho. injection Hopts as <-.
    destruct (first_appearance_options_offers _ _ _ _
                (dropdown_options_spec resource_name
                   (fun r => series_eq qse (Some g) r
                             && series_eq resource_type (Some t) r)
                   (df w))) as [Hoff _].
    destruct (Hoff o Ho) as (r & Hr & Hm & Hu).
    eexists. split; [reflexivity |].
    apply (first_appearance_options_offers delivery_date
             (fun r => series_eq resource_name (Some (value o)) r
                       && series_eq qse (Some g) r
                       && series_eq resource_type (Some t) r) (df w)).
    + apply dropdown_options_spec.
    + exists r. split; auto. simpl in *.
      apply andb_true_iff in Hm. destruct Hm as [Hg Ht].
      rewrite Hg, Ht, !andb_true_r. now apply String.eqb_eq.
  - intros u g t opts o Hopts Ho. injection Hopts as <-.
    destruct (first_appearance_options_offers _ _ _ _
                (dropdown_options_spec delivery_date
                   (fun r => series_eq resource_name (Some u) r
                             && series_eq qse (Some g) r
                             && series_eq resource_type (Some t) r)
                   (df w))) as [Hoff _].
    destruct (Hoff o Ho) as (r & Hr & Hm & Hd).
    assert (Hsel : In r (selected_rows w (value o) u g t)).
    { apply filter_In. split; auto. unfold selection_mask. simpl in *.
      apply andb_true_iff in Hm. destruct Hm as [Hm Ht].
      apply andb_true_iff in Hm. destruct Hm as [Hu Hg].
      rewrite Hu, Hg, Ht, !andb_true_r. now apply String.eqb_eq. }
    assert (Hne : selected_rows w (value o) u g t <> []).
    { intros Hnil. now rewrite Hnil in Hsel. }
    split; [exact Hne | split].
    + destruct (create_graph2_ok w (value o) u g t)
        as (fig & Hok & _ & Hdata & _).
      exists fig. split; auto. rewrite Hdata. intros Hnil.
      apply map_eq_nil, unique_empty_iff, map_eq_nil in Hnil. auto.
    + intros fig Hok. apply create_graph1_data in Hok.
      destruct Hok as [_ Hdata]. rewrite Hdata. intros Hnil.
      apply map_eq_nil, keys_empty_iff, map_eq_nil in Hnil. auto.
Qed.

End CascadeFacts.

(** ** The further properties on the sample data *)

Local Open Scope string_scope.

Lemma per_hour_grid_series_ascending_witness :
  exists fig hs,
    fst (create_graph1 (Some "01/01/2023") (Some "UNIT1") (Some "QSE1")
           (Some "CCGT90") after_button1) = Ok fig
    /\ series_names fig = map hour_label hs
    /\ StronglySorted Z.lt hs.
Proof.
  eexists.
  destruct (per_hour_grid_series_ascending after_button1
              "01/01/2023" "UNIT1" "QSE1" "CCGT90" _ eq_refl)
    as (hs & Hnames & Hsorted & _).
  exists hs. split; [reflexivity | split; [exact Hnames | exact Hsorted]].
Defined.

Lemma builders_draw_same_series_witness :
  exists fig1 fig2,
    fst (create_graph1 (Some "01/01/2023") (Some "UNIT1") (Some "QSE1")
           (Some "CCGT90") after_button1) = Ok fig1
    /\ fst (create_graph2 (Some "01/01/2023") (Some "UNIT1") (Some "QSE1")
              (Some "CCGT90") after_button1) = Ok fig2
    /\ Permutation (map series_content (data fig1))
         (map series_content (data fig2)).
Proof.
  eexists.
  destruct (builders_draw_same_series after_button1
              "01/01/2023" "UNIT1" "QSE1" "CCGT90" _ eq_refl)
    as (fig2 & Hok2 & Hperm).
  exists fig2. split; [reflexivity | split; [exact Hok2 | exact Hperm]].
Defined.

Lemma series_never_empty_witness :
  exists fig,
    fst (create_graph1 (Some "01/01/2023") (Some "UNIT1") (Some "QSE1")
           (Some "CCGT90") after_button1) = Ok fig
    /\ Forall well_formed_series (data fig).
Proof.
  eexists. split; [reflexivity |].
  apply (proj1 (series_never_empty after_button1
                  "01/01/2023" "UNIT1" "QSE1" "CCGT90")).
  reflexivity.
Defined.

Lemma no_matching_record_no_series_witness :
  exists fig,
    fst (create_graph1 (Some "09/09/2023") (Some "UNIT1") (Some "QSE1")
           (Some "CCGT90") late_world) = Ok fig
    /\ data fig = [].
Proof.
  apply (proj1 (proj1 (no_matching_record_no_series late_world
                         "09/09/2023" "UNIT1" "QSE1" "CCGT90"))).
  intros r Hr [Hdate _]. vm_compute in Hr.
  destruct Hr as [<- | [<- | [<- | [<- | [<- | [<- | []]]]]]];
    discriminate Hdate.
Defined.

Lemma grid_exception_by_least_hour_witness :
  fst (create_graph1 (Some "01/01/2023") (Some "UNIT1") (Some "QSE1")
         (Some "CCGT90") early_world) = Raise RowOutOfRange
  /\ fst (create_graph1 (Some "01/01/2023") (Some "UNIT1") (Some "QSE1")
            (Some "CCGT90") late_world) = Raise PairOutOfRange.
Proof.
  split.
  - apply (proj1 (grid_exception_by_least_hour early_world
                    "01/01/2023" "UNIT1" "QSE1" "CCGT90")).
    + exists (sample_bid "01/01/2023" 0 15 25). split.
      * vm_compute. left. reflexivity.
      * simpl. lia.
    + intros r Hr. vm_compute in Hr.
      destruct Hr as [<- | [<- | [<- | [<- | [<- | []]]]]]; simpl; lia.
  - apply (proj1 (proj2 (grid_exception_by_least_hour late_world
                           "01/01/2023" "UNIT1" "QSE1" "CCGT90"))).
    + intros r Hr. vm_compute in Hr.
      destruct Hr as [<- | [<- | [<- | [<- | []]]]]; simpl; lia.
    + exists (sample_bid "01/01/2023" 25 14 24). split.
      * vm_compute. left. reflexivity.
      * simpl. lia.
Defined.

Lemma dispatcher_draws_only_after_click_witness :
  display_graph 0 0 (Some "01/01/2023") (Some "UNIT1") (Some "QSE1")
    (Some "CCGT90") after_button1 = (Ok go_Figure, after_button1)
  /\ exists r, In r sample_df /\ matches "01/01/2023" "UNIT1" "QSE1"
                                   "CCGT90" r.
Proof.
  split.
  - apply (proj1 (dispatcher_draws_only_after_click 0 0
                    (Some "01/01/2023") (Some "UNIT1") (Some "QSE1")
                    (Some "CCGT90") after_button1)); lia.
  - destruct (proj2 (dispatcher_draws_only_after_click 1 1
                       (Some "01/01/2023") (Some "UNIT1") (Some "QSE1")
                       (Some "CCGT90") after_button2) _ eq_refl)
      as (_ & d & u & g & t & r & Hd & Hu & Hg & Ht & Hr & Hm).
    + discriminate.
    + injection Hd as <-. injection Hu as <-.
      injection Hg as <-. injection Ht as <-.
      exists r. split; [exact Hr | exact Hm].
Defined.

Lemma dispatcher_raises_only_from_grid_witness :
  exists r,
    In r (selected_rows late_world "01/01/2023" "UNIT1" "QSE1" "CCGT90")
    /\ ~ 1 <= hour_ending r <= 24.
Proof.
  destruct (dispatcher_raises_only_from_grid 1 0
              (Some "01/01/2023") (Some "UNIT1") (Some "QSE1")
              (Some "CCGT90") late_world PairOutOfRange eq_refl)
    as (_ & d & u & g & t & r & Hd & Hu & Hg & Ht & Hr & Hbad).
  injection Hd as <-. injection Hu as <-.
  injection Hg as <-. injection Ht as <-.
  exists r. split; [exact Hr | exact Hbad].
Defined.

Lemma cascade_offers_lead_somewhere_witness :
  (exists opts,
      update_generator_dropdown (Some "CCGT90") after_button1
      = (Ok opts, after_button1)
      /\ opts <> [])
  /\ exists opts,
       update_unit_dropdown (Some "QSE1") (Some "CCGT90") after_button1
       = (Ok opts, after_button1)
       /\ opts <> [].
Proof.
  destruct (cascade_offers_lead_somewhere after_button1)
    as (Htype & Hgen & _).
  split.
  - apply (Htype (option_of "CCGT90")). vm_compute. left. reflexivity.
  - apply (Hgen "CCGT90" _ (option_of "QSE1") eq_refl).
    vm_compute. left. reflexivity.
Defined.
